(** * SF State schedule scraper: classification, name splitting and
      instructor workload aggregation

    A shallow embedding of the data-transformation core of the two entry
    points of the scraper:

    - [Desktop]: [sf_state_scraper_interactive.py] ([parse_rows],
      [get_course_enrollment], [classify_courses], [process_instructor_names],
      [create_summary_table] and the enrollment loop of [main]);
    - [Web]: [app.py] ([extract_enrollment_from_detail_page] and the row
      extraction, enrollment loop and workload summary of
      [scrape_sf_state_schedule]);
    - [Prompt]: [get_user_inputs] of [sf_state_scraper_interactive.py];
    - [Deploy]: [deploy.py].

    Python [str] values are modelled by [string] (text is taken to be ASCII),
    Python and pandas integers by [Z], a DataFrame by the list of its row
    records, and the browser by the answers it gives to the calls the code
    makes.  Code that may raise returns a [result]. *)

From Stdlib Require Import Bool Arith ZArith Lia List Ascii String.
From Stdlib Require Import Permutation Sorted OrdersEx RelationClasses.
From Stdlib Require Import DecimalString.
Import ListNotations.

Local Open Scope list_scope.
Local Open Scope string_scope.

(** ** Python string operations *)

Module PyStr.

Definition code (c : ascii) : nat := nat_of_ascii c.

(** [c.isdigit()] on ASCII text: ["0"] .. ["9"]. *)
Definition is_digit (c : ascii) : bool :=
  ((48 <=? code c) && (code c <=? 57))%nat.

Definition is_upper (c : ascii) : bool :=
  ((65 <=? code c) && (code c <=? 90))%nat.

Definition is_lower (c : ascii) : bool :=
  ((97 <=? code c) && (code c <=? 122))%nat.

(** The word characters of [\b] and [\w]: letters, digits and underscore. *)
Definition is_word (c : ascii) : bool :=
  is_digit c || is_upper c || is_lower c || (code c =? 95)%nat.

(** [c.isspace()], also the class [\s]: tab, line feed, vertical tab, form
    feed, carriage return, the four separators 28 .. 31 and space. *)
Definition is_space (c : ascii) : bool :=
  (((9 <=? code c) && (code c <=? 13))
   || ((28 <=? code c) && (code c <=? 31))
   || (code c =? 32))%nat.

Definition digit_val (c : ascii) : Z := Z.of_nat (code c) - 48.

(** [c.lower()]. *)
Definition to_lower (c : ascii) : ascii :=
  if is_upper c then ascii_of_nat (code c + 32) else c.

Fixpoint lower (s : string) : string :=
  match s with
  | EmptyString => EmptyString
  | String c s' => String (to_lower c) (lower s')
  end.

(** [s.isdigit()]: at least one character, all of them digits. *)
Fixpoint all_digits (s : string) : bool :=
  match s with
  | EmptyString => true
  | String c s' => is_digit c && all_digits s'
  end.

Definition isdigit (s : string) : bool :=
  match s with
  | EmptyString => false
  | _ => all_digits s
  end.

(** [int(s)] for a string of digits, read left to right. *)
Fixpoint int_acc (acc : Z) (s : string) : Z :=
  match s with
  | EmptyString => acc
  | String c s' => int_acc (10 * acc + digit_val c) s'
  end.

Definition int_of_digits (s : string) : Z := int_acc 0 s.

(** [s.lstrip()], [s.rstrip()], [s.strip()]. *)
Fixpoint lstrip (s : string) : string :=
  match s with
  | EmptyString => EmptyString
  | String c s' => if is_space c then lstrip s' else s
  end.

Fixpoint rstrip (s : string) : string :=
  match s with
  | EmptyString => EmptyString
  | String c s' =>
      match rstrip s' with
      | EmptyString => if is_space c then EmptyString else String c EmptyString
      | r => String c r
      end
  end.

Definition strip (s : string) : string := rstrip (lstrip s).

(** [s.split()]: the maximal runs of non-space characters.  [cur] is the
    token being read, reversed. *)
Definition rev_string (l : list ascii) : string :=
  string_of_list_ascii (rev l).

Definition flush (cur : list ascii) (acc : list string) : list string :=
  match cur with
  | [] => acc
  | _ => rev_string cur :: acc
  end.

Fixpoint split_aux (cur : list ascii) (s : string) : list string :=
  match s with
  | EmptyString => flush cur []
  | String c s' =>
      if is_space c then flush cur (split_aux [] s')
      else split_aux (c :: cur) s'
  end.

Definition split (s : string) : list string := split_aux [] s.

(** [sep.join(l)]. *)
Definition join (sep : string) (l : list string) : string :=
  String.concat sep l.

(** [sub in s]. *)
Fixpoint contains (sub s : string) : bool :=
  String.prefix sub s ||
  match s with
  | EmptyString => false
  | String _ s' => contains sub s'
  end.

(** [re.search(sub, s, re.I)] for a pattern without metacharacters. *)
Definition icontains (sub s : string) : bool :=
  contains (lower sub) (lower s).

(** [s.replace(old, new)]: every occurrence of [old], left to right and
    without overlap.  [skip] counts the characters of a matched occurrence
    that are still to be dropped. *)
Fixpoint replace_aux (old new : string) (skip : nat) (s : string) : string :=
  match s with
  | EmptyString => EmptyString
  | String c s' =>
      match skip with
      | S k => replace_aux old new k s'
      | O =>
          if String.prefix old s
          then new ++ replace_aux old new (String.length old - 1) s'
          else String c (replace_aux old new 0 s')
      end
  end.

Fixpoint intersperse (new : string) (s : string) : string :=
  match s with
  | EmptyString => new
  | String c s' => new ++ String c (intersperse new s')
  end.

Definition replace (old new s : string) : string :=
  match old with
  | EmptyString => intersperse new s
  | _ => replace_aux old new 0 s
  end.

(** [s.split(",", 1)]: the text before and after the first comma, when
    there is one. *)
Fixpoint split_once (sep : ascii) (s : string) : option (string * string) :=
  match s with
  | EmptyString => None
  | String c s' =>
      if Ascii.eqb c sep then Some (EmptyString, s')
      else match split_once sep s' with
           | Some (a, b) => Some (String c a, b)
           | None => None
           end
  end.

(** Comparison of [str] values, by code points. *)
Definition ltb (a b : string) : bool :=
  match String_as_OT.compare a b with Lt => true | _ => false end.

End PyStr.

(** ** Sorted sets

    [sorted(set(xs))], and the sorted distinct group keys of pandas'
    [groupby] and [pivot_table]. *)

Section SortedSet.

Context {A : Type} (eqb ltb : A -> A -> bool).

Definition mem (x : A) (l : list A) : bool := existsb (eqb x) l.

Fixpoint dedup (l : list A) : list A :=
  match l with
  | [] => []
  | x :: l' => if mem x l' then dedup l' else x :: dedup l'
  end.

Fixpoint insert (x : A) (l : list A) : list A :=
  match l with
  | [] => [x]
  | y :: l' => if ltb y x then y :: insert x l' else x :: l
  end.

Fixpoint sort (l : list A) : list A :=
  match l with
  | [] => []
  | x :: l' => insert x (sort l')
  end.

Definition sort_uniq (l : list A) : list A := sort (dedup l).

(** [Series.unique()]: the distinct values in order of first appearance. *)
Fixpoint unique (l : list A) : list A :=
  match l with
  | [] => []
  | x :: l' => x :: filter (fun y => negb (eqb x y)) (unique l')
  end.

End SortedSet.

(** ** Data frames

    A cell holds text or an integer; a record is a row of a DataFrame, keyed
    by column name as the rows of [iterrows()] are. *)

Inductive cell : Type :=
| Str (s : string)
| Int (z : Z)
| NaN.

Definition record : Type := list (string * cell).

Record DataFrame : Type := mkDataFrame {
  columns : list string;
  rows : list record
}.

Fixpoint get (c : string) (r : record) : option cell :=
  match r with
  | [] => None
  | (c', v) :: r' => if String.eqb c c' then Some v else get c r'
  end.

(** [int(row.get(c, 0))], as [main] reads a metric of a summary row. *)
Definition metric (r : record) (c : string) : Z :=
  match get c r with
  | Some (Int z) => z
  | _ => 0%Z
  end.

Definition has_column (df : DataFrame) (c : string) : bool :=
  mem String.eqb c (columns df).

(** [df.rename(columns=mapping)]: a column that the mapping does not name
    keeps its name. *)
Definition rename_column (mapping : list (string * string)) (c : string)
  : string :=
  match find (fun kv => String.eqb c (fst kv)) mapping with
  | Some kv => snd kv
  | None => c
  end.

Definition rename (mapping : list (string * string)) (df : DataFrame)
  : DataFrame :=
  {| columns := map (rename_column mapping) (columns df);
     rows := map (map (fun cv => (rename_column mapping (fst cv), snd cv)))
                 (rows df) |}.

(** [df[cols]] for columns that exist. *)
Definition select_record (cols : list string) (r : record) : record :=
  flat_map (fun c => match get c r with
                     | Some v => [(c, v)]
                     | None => []
                     end) cols.

Definition select (cols : list string) (df : DataFrame) : DataFrame :=
  {| columns := cols; rows := map (select_record cols) (rows df) |}.

(** [df.fillna(v)]. *)
Definition fillna (v : cell) (df : DataFrame) : DataFrame :=
  {| columns := columns df;
     rows := map (map (fun cv => match snd cv with
                                 | NaN => (fst cv, v)
                                 | _ => cv
                                 end)) (rows df) |}.

(** [df[c] = df[c].fillna(v)]. *)
Definition fillna_column (c : string) (v : cell) (df : DataFrame) : DataFrame :=
  {| columns := columns df;
     rows := map (map (fun cv => match snd cv with
                                 | NaN => if String.eqb (fst cv) c
                                          then (fst cv, v) else cv
                                 | _ => cv
                                 end)) (rows df) |}.

Definition sum_Z (l : list Z) : Z := fold_right Z.add 0%Z l.

(** ** The browser

    The code drives a browser and an HTML parser.  Both are modelled by what
    they answer: a call returns a value or raises.  No function below reads
    a page that an earlier call left in the driver (each one starts with its
    own [driver.get]), so the pages are given by URL. *)

Inductive exn : Type :=
| NoSuchElementException
| TimeoutException
| WebDriverException
| ValueError.

Inductive result (A : Type) : Type :=
| Ok (a : A)
| Raise (e : exn).

Arguments Ok {A} a.
Arguments Raise {A} e.

(** ** The desktop variant: [sf_state_scraper_interactive.py] *)

Module Desktop.

Inductive Level : Type := ug | grad.

Record RawCourseRow : Type := mkRaw {
  course_type : string;
  title : string;
  units : string;
  course_code : string;
  instructor : string;
  enrolled : Z;
  note : string;
  course_link : option string;
  class_number : string
}.

(** *** [parse_rows] *)

(** A [tr] of the result table: the texts of its [td] cells and the [href]
    of its first anchor, if it has one. *)
Record TableRow : Type := mkTableRow {
  tds : list string;
  href : option string
}.

Definition starts_with (p s : string) : bool := String.prefix p s.

Definition link_of (h : option string) : option string :=
  match h with
  | None => None
  | Some EmptyString => Some EmptyString
  | Some l =>
      if starts_with "http" l then Some l
      else Some ("https://webapps.sfsu.edu" ++ l)
  end.

(** The instructor of column 5, ["Instructors: First Last"], stored as
    ["Last, First"]. *)
Definition parse_instructor (instructor_col : string) : string :=
  if PyStr.contains "Instructors:" instructor_col then
    let instructor_text :=
      PyStr.strip (PyStr.replace "Instructors:" "" instructor_col) in
    match PyStr.split instructor_text with
    | p0 :: p1 :: _ => p1 ++ ", " ++ p0
    | [p0] => p0
    | [] => ""
    end
  else "".

Definition note_of (course_type : string) : string :=
  PyStr.join "; "
    ((if PyStr.contains "Cross-Listed" course_type
      then ["cross-listed"] else [])
     ++ (if PyStr.contains "Paired" course_type then ["paired"] else []))%list.

Definition is_empty (s : string) : bool :=
  match s with EmptyString => true | _ => false end.

(** One turn of the loop of [parse_rows]: [None] when the row is skipped. *)
Definition parse_row (subject : string) (tr : TableRow)
  : option RawCourseRow :=
  if (List.length (tds tr) <? 3)%nat then None
  else
    let row_text := PyStr.lower (PyStr.join " " (tds tr)) in
    if PyStr.contains "course type" row_text
       && PyStr.contains "class number" row_text then None
    else
      let td_data := (tds tr ++ repeat "" (12 - List.length (tds tr)))%list in
      let course_type := nth 0 td_data "" in
      let title := nth 1 td_data "" in
      let units := nth 2 td_data "" in
      let class_number := nth 3 td_data "" in
      let course_link := link_of (href tr) in
      let course_code := subject ++ " " ++ class_number in
      let instructor := parse_instructor (nth 5 td_data "") in
      if is_empty course_code && is_empty instructor then None
      else if is_empty instructor || is_empty (PyStr.strip instructor)
      then None
      else Some {| course_type := course_type;
                   title := title;
                   units := units;
                   course_code := course_code;
                   instructor := instructor;
                   enrolled := 0;
                   note := note_of course_type;
                   course_link := course_link;
                   class_number := class_number |}.

Definition parse_rows (subject : string) (course_rows : list TableRow)
  : list RawCourseRow :=
  flat_map (fun tr => match parse_row subject tr with
                      | Some r => [r]
                      | None => []
                      end) course_rows.

(** *** [classify_courses] *)

Definition boundary_after (s : string) : bool :=
  match s with
  | EmptyString => true
  | String c _ => negb (PyStr.is_word c)
  end.

(** An attempt to match [\b(\d{3})\b] where [s] starts; [prev_word] tells
    whether the character before it is a word character.  The result is
    the group. *)
Definition match_at (prev_word : bool) (s : string) : option string :=
  match s with
  | String d1 (String d2 (String d3 rest)) =>
      if negb prev_word
         && PyStr.is_digit d1 && PyStr.is_digit d2 && PyStr.is_digit d3
         && boundary_after rest
      then Some (String d1 (String d2 (String d3 EmptyString)))
      else None
  | _ => None
  end.

(** [re.search(r"\b(\d{3})\b", s)]: the attempts go from left to right. *)
Fixpoint search_from (prev_word : bool) (s : string) : option string :=
  match match_at prev_word s with
  | Some g => Some g
  | None =>
      match s with
      | EmptyString => None
      | String c s' => search_from (PyStr.is_word c) s'
      end
  end.

Definition re_search_course_num (s : string) : option string :=
  search_from false s.

Definition is_grad (row : RawCourseRow) : bool :=
  match re_search_course_num (course_code row) with
  | Some g => (700 <=? PyStr.int_of_digits g)%Z
  | None => false
  end.

Definition supervision_keywords : list string :=
  ["Independent"; "Internship"; "Supervision"; "Thesis"; "Field";
   "Research"].

Definition is_supervision (row : RawCourseRow) : bool :=
  existsb (fun k => PyStr.icontains k (title row)) supervision_keywords.

Record ClassifiedRow : Type := mkClassified {
  raw : RawCourseRow;
  level : Level;
  supervision : bool
}.

Definition classify (r : RawCourseRow) : ClassifiedRow :=
  {| raw := r;
     level := if is_grad r then grad else ug;
     supervision := is_supervision r |}.

Definition classify_courses (df : list RawCourseRow) : list ClassifiedRow :=
  map classify df.

(** *** [process_instructor_names] *)

(** [None] is a missing value ([pd.isna]). *)
Definition split_name (instructor : option string) : string * string :=
  match instructor with
  | None => ("", "")
  | Some EmptyString => ("", "")
  | Some s =>
      match PyStr.split_once "," s with
      | Some (p0, p1) => (PyStr.strip p0, PyStr.strip p1)
      | None => (PyStr.strip s, "")
      end
  end.

Record NamedRow : Type := mkNamed {
  classified : ClassifiedRow;
  last_name : string;
  first_name : string
}.

Definition with_names (c : ClassifiedRow) : NamedRow :=
  let n := split_name (Some (instructor (raw c))) in
  {| classified := c; last_name := fst n; first_name := snd n |}.

Definition process_instructor_names (df : list ClassifiedRow)
  : list NamedRow :=
  map with_names df.

(** *** [create_summary_table] *)

Definition level_eqb (a b : Level) : bool :=
  match a, b with
  | ug, ug | grad, grad => true
  | _, _ => false
  end.

Definition bucket (r : NamedRow) : string :=
  let l := level (classified r) in
  let sup := supervision (classified r) in
  if level_eqb l ug && negb sup then "ug_lecture"
  else if level_eqb l ug && sup then "ug_superv"
  else if level_eqb l grad && negb sup then "grad_lecture"
  else "grad_superv".

(** The helper columns [class_count] and [student_count]. *)
Definition value (v : string) (r : NamedRow) : Z :=
  if String.eqb v "class_count" then 1%Z
  else enrolled (raw (classified r)).

Definition key : Type := string * string.

Definition key_of (r : NamedRow) : key := (last_name r, first_name r).

Definition key_eqb (a b : key) : bool :=
  String.eqb (fst a) (fst b) && String.eqb (snd a) (snd b).

Definition key_ltb (a b : key) : bool :=
  PyStr.ltb (fst a) (fst b)
  || (String.eqb (fst a) (fst b) && PyStr.ltb (snd a) (snd b)).

(** The groups of [groupby(["Last Name", "First Name"])], in key order. *)
Definition group_keys (df : list NamedRow) : list key :=
  sort_uniq key_eqb key_ltb (map key_of df).

Definition group (df : list NamedRow) (k : key) : list NamedRow :=
  filter (fun r => key_eqb (key_of r) k) df.

(** The buckets that occur in the frame ([observed=True]), in order. *)
Definition observed_buckets (df : list NamedRow) : list string :=
  sort_uniq String.eqb PyStr.ltb (map bucket df).

(** The column index of the pivot table: pairs of a value and a bucket. *)
Definition pivot_columns (df : list NamedRow) : list (string * string) :=
  flat_map (fun v => map (fun b => (v, b)) (observed_buckets df))
           ["class_count"; "student_count"].

(** [aggfunc="sum"] with [fill_value=0]. *)
Definition pivot_cell (df : list NamedRow) (k : key) (vb : string * string)
  : cell :=
  match filter (fun r => String.eqb (bucket r) (snd vb)) (group df k) with
  | [] => Int 0
  | g => Int (sum_Z (map (value (fst vb)) g))
  end.

(** The flattened column name [f"{v}_{k}"] of the pair [(k, v)]. *)
Definition flat_name (kv : string * string) : string :=
  snd kv ++ "_" ++ fst kv.

(** [pivot_table(...)], columns flattened and index reset. *)
Definition pivot_table (df : list NamedRow) : DataFrame :=
  {| columns :=
       "Last Name" :: "First Name" :: map flat_name (pivot_columns df);
     rows :=
       map (fun k =>
              ("Last Name", Str (fst k))
                :: ("First Name", Str (snd k))
                :: map (fun kv => (flat_name kv, pivot_cell df k kv))
                       (pivot_columns df))
           (group_keys df) |}.

Definition column_mapping : list (string * string) :=
  [("ug_lecture_class_count", "Total # of UG classes");
   ("ug_lecture_student_count", "Total # of UG students from Column D");
   ("ug_superv_class_count", "Total # of UG supervion classes");
   ("ug_superv_student_count", "Total # of UG students from Column F");
   ("grad_lecture_class_count", "Total # of Grad classes");
   ("grad_lecture_student_count", "Total # of Grad students from Colum H");
   ("grad_superv_class_count", "Total # of Grad supervion classes");
   ("grad_superv_student_count", "Total # of Grad student from Column J")].

(** ["; ".join(sorted(set(filter(None, s))))]. *)
Definition collect_notes (s : list string) : string :=
  PyStr.join "; "
    (sort_uniq String.eqb PyStr.ltb (filter (fun n => negb (is_empty n)) s)).

(** The notes of each group. *)
Definition notes (df : list NamedRow) : list (key * string) :=
  map (fun k =>
         (k, collect_notes (map (fun r => note (raw (classified r)))
                                (group df k))))
      (group_keys df).

Definition record_key (r : record) : option key :=
  match get "Last Name" r, get "First Name" r with
  | Some (Str l), Some (Str f) => Some (l, f)
  | _, _ => None
  end.

Definition lookup_note (ns : list (key * string)) (k : key) : option string :=
  match find (fun kn => key_eqb (fst kn) k) ns with
  | Some kn => Some (snd kn)
  | None => None
  end.

(** [pivot.merge(notes, on=["Last Name", "First Name"], how="left")]: a row
    without a partner gets a missing note. *)
Definition merge (pivot : DataFrame) (ns : list (key * string)) : DataFrame :=
  {| columns := (columns pivot ++ ["note"])%list;
     rows :=
       map (fun r =>
              (r ++ [("note",
                      match record_key r with
                      | Some k => match lookup_note ns k with
                                  | Some n => Str n
                                  | None => NaN
                                  end
                      | None => NaN
                      end)])%list)
           (rows pivot) |}.

Definition column_order : list string :=
  ["Last Name";
   "First Name";
   "Total # of UG classes";
   "Total # of UG students from Column D";
   "Total # of UG supervion classes";
   "Total # of UG students from Column F";
   "Total # of Grad classes";
   "Total # of Grad students from Colum H";
   "Total # of Grad supervion classes";
   "Total # of Grad student from Column J";
   "note"].

Definition ensure_note (df : DataFrame) : DataFrame :=
  if has_column df "note" then df
  else {| columns := (columns df ++ ["note"])%list;
          rows := map (fun r => (r ++ [("note", Str "")])%list) (rows df) |}.

Definition create_summary_table (df : list NamedRow) : DataFrame :=
  let pivot := rename column_mapping (pivot_table df) in
  let final_df := merge pivot (notes df) in
  let final_df := fillna (Int 0) final_df in
  let final_df := fillna_column "note" (Str "") (ensure_note final_df) in
  let existing_columns := filter (has_column final_df) column_order in
  select existing_columns final_df.

(** The part of [main] from the raw rows to the summary. *)
Definition summarize (rows : list RawCourseRow) : DataFrame :=
  create_summary_table (process_instructor_names (classify_courses rows)).

(** *** [get_course_enrollment] and the enrollment loop of [main] *)

Inductive By : Type := CSS_SELECTOR | XPATH.

Record WebElement : Type := mkElement {
  text : result string
}.

(** A course detail page: what [wait.until(presence_of_element_located(_))]
    and [driver.page_source] answer on it. *)
Record DetailPage : Type := mkDetailPage {
  wait_located : By * string -> result WebElement;
  page_source : result string
}.

(** [driver.get(url)] and the page it loads. *)
Definition Browser : Type := string -> result DetailPage.

Definition selectors : list (By * string) :=
  [(CSS_SELECTOR, "#content > div > div.detail-container.row.class-details > div.col-md-4 > div > div:nth-child(7) > div.col-xs-5.col-md-6");
   (CSS_SELECTOR, "#content > div > div.detail-container.row.class-details > div.col-md-4 > div > div:nth-child(5) > div.col-xs-5.col-md-6");
   (XPATH, "/html/body/div[4]/section/div/div/div/div[3]/div[2]/div/div[3]/div[2]");
   (XPATH, "/html/body/div[4]/section/div/div/div/div[3]/div[2]/div/div[1]/div[2]");
   (CSS_SELECTOR, "#content > div > div.detail-container.row.class-details > div.col-md-4 > div > div:nth-child(6) > div.col-xs-5.col-md-6")].

(** The selector loop: the first element that is located. *)
Fixpoint first_located (page : DetailPage) (sels : list (By * string))
  : option WebElement :=
  match sels with
  | [] => None
  | sel :: sels' =>
      match wait_located page sel with
      | Ok e => Some e
      | Raise _ => first_located page sels'
      end
  end.

(** The longest prefix of [s] whose characters satisfy [p], and the rest. *)
Fixpoint span (p : ascii -> bool) (s : string) : string * string :=
  match s with
  | EmptyString => (EmptyString, EmptyString)
  | String c s' =>
      if p c then let (a, b) := span p s' in (String c a, b)
      else (EmptyString, s)
  end.

(** [re.findall(r'\d+', s)[0]], when there is a number. *)
Fixpoint first_number (s : string) : option string :=
  match s with
  | EmptyString => None
  | String c s' =>
      if PyStr.is_digit c then Some (fst (span PyStr.is_digit s))
      else first_number s'
  end.

(** The enrolled count read from the page; 0 when no element is located,
    its text holds no number, or reading it raises. *)
Definition read_enrolled (page : DetailPage) : Z :=
  match first_located page selectors with
  | Some e =>
      match text e with
      | Ok t =>
          match first_number (PyStr.strip t) with
          | Some n => PyStr.int_of_digits n
          | None => 0%Z
          end
      | Raise _ => 0%Z
      end
  | None => 0%Z
  end.

(** At most [n] leading characters that satisfy [p], and the rest. *)
Fixpoint take_upto (n : nat) (p : ascii -> bool) (s : string)
  : string * string :=
  match n, s with
  | S n', String c s' =>
      if p c then let (a, b) := take_upto n' p s' in (String c a, b)
      else (EmptyString, s)
  | _, _ => (EmptyString, s)
  end.

(** An attempt to match [[A-Z]{2,4}\s+\d{3}[A-Z]?] where [s] starts. *)
Definition match_code_at (s : string) : option string :=
  let (u, r1) := take_upto 4 PyStr.is_upper s in
  if (String.length u <? 2)%nat then None
  else
    let (w, r2) := span PyStr.is_space r1 in
    if is_empty w then None
    else
      match r2 with
      | String d1 (String d2 (String d3 r3)) =>
          if PyStr.is_digit d1 && PyStr.is_digit d2 && PyStr.is_digit d3
          then
            let digits := String d1 (String d2 (String d3 EmptyString)) in
            let suffix :=
              match r3 with
              | String c _ =>
                  if PyStr.is_upper c then String c EmptyString
                  else EmptyString
              | EmptyString => EmptyString
              end in
            Some (u ++ w ++ digits ++ suffix)
          else None
      | _ => None
      end.

(** [re.search(r"([A-Z]{2,4}\s+\d{3}[A-Z]?)", s)]. *)
Fixpoint search_code (s : string) : option string :=
  match match_code_at s with
  | Some g => Some g
  | None =>
      match s with
      | EmptyString => None
      | String _ s' => search_code s'
      end
  end.

(** [re.search(r"Course:\s*([A-Z]{2,4}\s+\d{3}[A-Z]?)", s)]. *)
Fixpoint drop (n : nat) (s : string) : string :=
  match n, s with
  | S n', String _ s' => drop n' s'
  | _, _ => s
  end.

Definition match_labelled_code_at (s : string) : option string :=
  if String.prefix "Course:" s
  then match_code_at (snd (span PyStr.is_space (drop 7 s)))
  else None.

Fixpoint search_labelled_code (s : string) : option string :=
  match match_labelled_code_at s with
  | Some g => Some g
  | None =>
      match s with
      | EmptyString => None
      | String _ s' => search_labelled_code s'
      end
  end.

(** The course code read from the page source; empty when neither pattern
    matches or reading the source raises. *)
Definition read_course_code (page : DetailPage) : string :=
  match page_source page with
  | Ok src =>
      match search_code src with
      | Some g => g
      | None =>
          match search_labelled_code src with
          | Some g => g
          | None => ""
          end
      end
  | Raise _ => ""
  end.

Definition get_course_enrollment (driver : Browser)
  (course_link : option string) : Z * string :=
  match course_link with
  | None => (0%Z, "")
  | Some EmptyString => (0%Z, "")
  | Some l =>
      match driver l with
      | Ok page => (read_enrolled page, read_course_code page)
      | Raise _ => (0%Z, "")
      end
  end.

Definition set_enrolled (r : RawCourseRow) (e : Z) : RawCourseRow :=
  {| course_type := course_type r; title := title r; units := units r;
     course_code := course_code r; instructor := instructor r;
     enrolled := e; note := note r; course_link := course_link r;
     class_number := class_number r |}.

Definition set_course_code (r : RawCourseRow) (c : string) : RawCourseRow :=
  {| course_type := course_type r; title := title r; units := units r;
     course_code := c; instructor := instructor r;
     enrolled := enrolled r; note := note r; course_link := course_link r;
     class_number := class_number r |}.

(** One turn of the enrollment loop of [main].  [get_course_enrollment]
    handles every exception itself, so the handler of the loop is never
    entered. *)
Definition enroll_row (driver : Browser) (row : RawCourseRow)
  : RawCourseRow :=
  match course_link row with
  | None | Some EmptyString => row
  | Some _ =>
      let (e, actual_course_code) :=
        get_course_enrollment driver (course_link row) in
      let row := set_enrolled row e in
      if is_empty actual_course_code then row
      else set_course_code row actual_course_code
  end.

Definition enroll_rows (driver : Browser) (rows : list RawCourseRow)
  : list RawCourseRow :=
  map (enroll_row driver) rows.

(** [main], from the rows of the result table to the summary. *)
Definition run (driver : Browser) (subject : string)
  (course_rows : list TableRow) : DataFrame :=
  summarize (enroll_rows driver (parse_rows subject course_rows)).

End Desktop.

(** ** The web-UI variant: [app.py] *)

Module Web.

(** One entry of [data]. *)
Record ClassRow : Type := mkClassRow {
  class_nbr : string;
  section : string;
  component : string;
  course_number : string;
  instructor : string;
  course_title : string;
  enrollment : Z
}.

(** *** Row extraction in [scrape_sf_state_schedule] *)

Definition is_empty (s : string) : bool :=
  match s with EmptyString => true | _ => false end.

Definition is_placeholder (s : string) : bool :=
  String.eqb s "TBA" || String.eqb s "Staff" || String.eqb s "".

(** The loop over the cells 7, 8 and 9: the first text that names an
    instructor. *)
Fixpoint pick_instructor (cells : list string) (idxs : list nat) : string :=
  match idxs with
  | [] => ""
  | i :: idxs' =>
      if (i <? List.length cells)%nat then
        let instructor_text := PyStr.strip (nth i cells "") in
        if negb (is_empty instructor_text)
           && negb (is_placeholder instructor_text)
        then instructor_text
        else pick_instructor cells idxs'
      else pick_instructor cells idxs'
  end.

Definition instructor_of (cells : list string) : string :=
  let instructor := pick_instructor cells [7; 8; 9]%nat in
  if is_empty instructor
     || String.eqb instructor "TBA" || String.eqb instructor "Staff"
  then "TBA" else instructor.

(** One turn of the loop over the table rows: [None] when the row is
    skipped.  [cells] are the texts of the cells of the row. *)
Definition extract_row (cells : list string) : option ClassRow :=
  if (8 <=? List.length cells)%nat then
    let first_cell_text := PyStr.strip (nth 0 cells "") in
    if is_empty first_cell_text
       || existsb (fun keyword =>
                     PyStr.contains keyword (PyStr.lower first_cell_text))
                  ["select"; "class"; "course"]
    then None
    else
      let class_nbr := PyStr.strip (nth 1 cells "") in
      let section := PyStr.strip (nth 2 cells "") in
      let component := PyStr.strip (nth 3 cells "") in
      if negb (PyStr.isdigit class_nbr) then None
      else
        let instructor := instructor_of cells in
        let course_match := PyStr.split first_cell_text in
        let course_number :=
          match course_match with
          | _ :: n :: _ => n
          | _ => "000"
          end in
        Some {| class_nbr := class_nbr;
                section := section;
                component := component;
                course_number := course_number;
                instructor := instructor;
                course_title := first_cell_text;
                enrollment := 0 |}
  else None.

(** The loop over [rows[1:]]: [table] holds the cell texts of the rows after
    the header row. *)
Definition extract_rows (table : list (list string)) : list ClassRow :=
  flat_map (fun cells => match extract_row cells with
                         | Some r => [r]
                         | None => []
                         end) table.

(** *** [extract_enrollment_from_detail_page] *)

Record WebElement : Type := mkElement {
  text : result string
}.

(** A class detail page: what the wait for the element [content],
    [driver.find_element(By.CSS_SELECTOR, _)] and the parse of the page
    source (the texts of the [div]s of class [col-xs-5 col-md-6]) answer. *)
Record DetailPage : Type := mkDetailPage {
  wait_content : result unit;
  find_element : string -> result WebElement;
  soup_divs : result (list string)
}.

Definition Browser : Type := string -> result DetailPage.

Definition detail_url (class_nbr : string) : string :=
  "https://prd-wlssb.sfsu.edu/psp/csprd/EMPLOYEE/SA/c/COMMUNITY_ACCESS.CLASS_SEARCH.GBL?Page=SSR_CLSRCH_ENTRY&Action=U&ACAD_CAREER=UGRD&INSTITUTION=SFSU0&TERM=2253&CLASS_NBR="
  ++ class_nbr.

Definition enrollment_selectors : list string :=
  ["#content > div > div.detail-container.row.class-details > div.col-md-4 > div > div:nth-child(6) > div.col-xs-5.col-md-6";
   "div.col-xs-5.col-md-6";
   "span[id*='ENRL_TOT']"].

Definition bind {A B : Type} (m : result A) (f : A -> result B) : result B :=
  match m with
  | Ok a => f a
  | Raise e => Raise e
  end.

(** The fallback: the first parsed [div] whose text is a number of at most
    500. *)
Fixpoint scan_divs (divs : list string) : Z :=
  match divs with
  | [] => 0%Z
  | d :: divs' =>
      let t := PyStr.strip d in
      if PyStr.isdigit t
         && (0 <=? PyStr.int_of_digits t)%Z
         && (PyStr.int_of_digits t <=? 500)%Z
      then PyStr.int_of_digits t
      else scan_divs divs'
  end.

(** The selector loop, followed by the fallback.  Only
    [NoSuchElementException] is handled inside the loop, where finding the
    element and reading its text may both raise. *)
Fixpoint try_selectors (page : DetailPage) (sels : list string) : result Z :=
  match sels with
  | [] => bind (soup_divs page) (fun divs => Ok (scan_divs divs))
  | sel :: sels' =>
      match find_element page sel with
      | Ok e =>
          match text e with
          | Ok t =>
              let enrollment_text := PyStr.strip t in
              if PyStr.isdigit enrollment_text
              then Ok (PyStr.int_of_digits enrollment_text)
              else try_selectors page sels'
          | Raise NoSuchElementException => try_selectors page sels'
          | Raise x => Raise x
          end
      | Raise NoSuchElementException => try_selectors page sels'
      | Raise e => Raise e
      end
  end.

(** The body of the [try]. *)
Definition extract_body (driver : Browser) (class_nbr : string) : result Z :=
  bind (driver (detail_url class_nbr)) (fun page =>
  bind (wait_content page) (fun _ =>
  try_selectors page enrollment_selectors)).

Definition extract_enrollment_from_detail_page (driver : Browser)
  (class_nbr : string) : Z :=
  match extract_body driver class_nbr with
  | Ok n => n
  | Raise _ => 0%Z
  end.

Definition set_enrollment (r : ClassRow) (e : Z) : ClassRow :=
  {| class_nbr := class_nbr r; section := section r;
     component := component r; course_number := course_number r;
     instructor := instructor r; course_title := course_title r;
     enrollment := e |}.

(** The enrollment loop of [scrape_sf_state_schedule]. *)
Definition fill_enrollment (driver : Browser) (data : list ClassRow)
  : list ClassRow :=
  map (fun class_data =>
         set_enrollment class_data
           (extract_enrollment_from_detail_page driver (class_nbr class_data)))
      data.

(** *** The workload summary of [scrape_sf_state_schedule] *)

(** [int(s[:1])]. *)
Definition leading_digit (s : string) : result Z :=
  match s with
  | String c _ =>
      if PyStr.is_digit c then Ok (PyStr.digit_val c) else Raise ValueError
  | EmptyString => Raise ValueError
  end.

(** [classes['Course Number'].astype(str).str[:1].astype(int)]: the
    conversion raises as soon as one value is not a digit. *)
Fixpoint leading_digits (classes : list ClassRow)
  : result (list (ClassRow * Z)) :=
  match classes with
  | [] => Ok []
  | c :: classes' =>
      bind (leading_digit (course_number c)) (fun d =>
      bind (leading_digits classes') (fun ds => Ok ((c, d) :: ds)))
  end.

(** [Series.str.contains('IND|THE|SUP', case=False, na=False)]. *)
Definition is_supervision (c : ClassRow) : bool :=
  existsb (fun k => PyStr.icontains k (component c)) ["IND"; "THE"; "SUP"].

Definition split_name (instructor : string) : string * string :=
  match PyStr.split (PyStr.replace "," "" instructor) with
  | p0 :: p1 :: rest => (p0, PyStr.join " " (p1 :: rest))
  | _ => (instructor, "")
  end.

Record WorkloadRow : Type := mkWorkload {
  last_name : string;
  first_name : string;
  ug_classes_count : Z;
  ug_students : Z;
  ug_supervision_count : Z;
  ug_supervision_students : Z;
  grad_classes_count : Z;
  grad_students : Z;
  grad_supervision_count : Z;
  grad_supervision_students : Z
}.

Definition count (l : list ClassRow) : Z := Z.of_nat (List.length l).

Definition students (l : list ClassRow) : Z := sum_Z (map enrollment l).

(** The rows whose leading digit is at most 6, and those where it is at
    least 7. *)
Definition ug_classes (ds : list (ClassRow * Z)) : list ClassRow :=
  map fst (filter (fun cd => (snd cd <=? 6)%Z) ds).

Definition grad_classes (ds : list (ClassRow * Z)) : list ClassRow :=
  map fst (filter (fun cd => (7 <=? snd cd)%Z) ds).

(** The body of the loop over the instructors. *)
Definition workload_of (df : list ClassRow) (instructor_name : string)
  : result WorkloadRow :=
  let instructor_classes :=
    filter (fun c => String.eqb (instructor c) instructor_name) df in
  let name := split_name instructor_name in
  bind (leading_digits instructor_classes) (fun ds =>
    let ug_classes := ug_classes ds in
    let grad_classes := grad_classes ds in
    let ug_supervision := filter is_supervision ug_classes in
    let grad_supervision := filter is_supervision grad_classes in
    Ok {| last_name := fst name;
          first_name := snd name;
          ug_classes_count := count ug_classes;
          ug_students := students ug_classes;
          ug_supervision_count := count ug_supervision;
          ug_supervision_students := students ug_supervision;
          grad_classes_count := count grad_classes;
          grad_students := students grad_classes;
          grad_supervision_count := count grad_supervision;
          grad_supervision_students := students grad_supervision |}).

Fixpoint workloads (df : list ClassRow) (instructors : list string)
  : result (list WorkloadRow) :=
  match instructors with
  | [] => Ok []
  | i :: instructors' =>
      if String.eqb i "TBA" then workloads df instructors'
      else
        bind (workload_of df i) (fun w =>
        bind (workloads df instructors') (fun ws => Ok (w :: ws)))
  end.

Definition workload_data (df : list ClassRow) : result (list WorkloadRow) :=
  workloads df (unique String.eqb (map instructor df)).

Definition workload_columns : list string :=
  ["Last Name";
   "First Name";
   "Total # of UG classes";
   "Total # of UG students from Column D";
   "Total # of UG supervion classes";
   "Total # of UG students from Column F";
   "Total # of Grad classes";
   "Total # of Grad students from Colum H";
   "Total # of Grad supervion classes";
   "Total # of Grad student from Column J"].

Definition workload_record (w : WorkloadRow) : record :=
  [("Last Name", Str (last_name w));
   ("First Name", Str (first_name w));
   ("Total # of UG classes", Int (ug_classes_count w));
   ("Total # of UG students from Column D", Int (ug_students w));
   ("Total # of UG supervion classes", Int (ug_supervision_count w));
   ("Total # of UG students from Column F", Int (ug_supervision_students w));
   ("Total # of Grad classes", Int (grad_classes_count w));
   ("Total # of Grad students from Colum H", Int (grad_students w));
   ("Total # of Grad supervion classes", Int (grad_supervision_count w));
   ("Total # of Grad student from Column J",
    Int (grad_supervision_students w))].

(** [pd.DataFrame(workload_data)]: the columns are the keys of the
    dictionaries, and a frame built from no dictionary has none. *)
Definition workload_df (ws : list WorkloadRow) : DataFrame :=
  {| columns := match ws with [] => [] | _ => workload_columns end;
     rows := map workload_record ws |}.

(** [scrape_sf_state_schedule] from the rows of the result table on: the
    handler of the function turns an exception into [None]. *)
Definition summarize (data : list ClassRow) : option DataFrame :=
  match workload_data data with
  | Ok ws => Some (workload_df ws)
  | Raise _ => None
  end.

Definition run (driver : Browser) (table : list (list string))
  : option DataFrame :=
  match extract_rows table with
  | [] => None
  | data => summarize (fill_enrollment driver data)
  end.

End Web.

(** ** The summary of the desktop variant, column by column

    What [create_summary_table] is shown to compute: a schema that gives
    each column of [column_order] its meaning, and the record of a group
    read off that schema. *)

Module Schema.
Import Desktop.

Inductive kind : Type :=
| LastName
| FirstName
| ClassCount (b : string)
| StudentCount (b : string)
| Note.

Definition schema : list (string * kind) :=
  [("Last Name", LastName);
   ("First Name", FirstName);
   ("Total # of UG classes", ClassCount "ug_lecture");
   ("Total # of UG students from Column D", StudentCount "ug_lecture");
   ("Total # of UG supervion classes", ClassCount "ug_superv");
   ("Total # of UG students from Column F", StudentCount "ug_superv");
   ("Total # of Grad classes", ClassCount "grad_lecture");
   ("Total # of Grad students from Colum H", StudentCount "grad_lecture");
   ("Total # of Grad supervion classes", ClassCount "grad_superv");
   ("Total # of Grad student from Column J", StudentCount "grad_superv");
   ("note", Note)].

(** The rows of the group [k] that fall in the bucket [b]. *)
Definition in_bucket (df : list NamedRow) (k : key) (b : string)
  : list NamedRow :=
  filter (fun r => String.eqb (bucket r) b) (group df k).

Definition class_count (df : list NamedRow) (k : key) (b : string) : Z :=
  Z.of_nat (List.length (in_bucket df k b)).

Definition student_count (df : list NamedRow) (k : key) (b : string) : Z :=
  sum_Z (map (fun r => enrolled (raw (classified r))) (in_bucket df k b)).

(** A bucket is observed when some row of the frame falls in it. *)
Definition observed (df : list NamedRow) (b : string) : bool :=
  mem String.eqb b (map bucket df).

Definition present (df : list NamedRow) (c : string * kind) : bool :=
  match snd c with
  | ClassCount b | StudentCount b => observed df b
  | _ => true
  end.

Definition group_notes (df : list NamedRow) (k : key) : list string :=
  map (fun r => note (raw (classified r))) (group df k).

Definition cell_of (df : list NamedRow) (k : key) (c : kind) : cell :=
  match c with
  | LastName => Str (fst k)
  | FirstName => Str (snd k)
  | ClassCount b => Int (class_count df k b)
  | StudentCount b => Int (student_count df k b)
  | Note => Str (collect_notes (group_notes df k))
  end.

Definition summary_columns (df : list NamedRow) : list string :=
  map fst (filter (present df) schema).

Definition summary_record (df : list NamedRow) (k : key) : record :=
  map (fun c => (fst c, cell_of df k (snd c))) (filter (present df) schema).

Definition summary (df : list NamedRow) : DataFrame :=
  {| columns := summary_columns df;
     rows := map (summary_record df) (group_keys df) |}.

Definition all_buckets : list string :=
  ["grad_lecture"; "grad_superv"; "ug_lecture"; "ug_superv"].

End Schema.

(** Case analyses on the observed buckets and on the entries of the
    schema. *)

Ltac split_observed df :=
  destruct (Schema.observed df "grad_lecture"), (Schema.observed df "grad_superv"),
    (Schema.observed df "ug_lecture"), (Schema.observed df "ug_superv").

Ltac schema_cases H :=
  unfold Schema.schema in H; cbn [In] in H;
  repeat match type of H with
         | _ \/ _ => destruct H as [H|H]
         | False => destruct H
         end;
  inversion H; subst; clear H.

(** ** The workload of the web-UI variant, instructor by instructor *)

Module Workload.
Import Web.

(** The course number starts with a digit. *)
Definition numbered (c : ClassRow) : bool :=
  match leading_digit (course_number c) with
  | Ok _ => true
  | Raise _ => false
  end.

Definition digit_of (c : ClassRow) : Z :=
  match leading_digit (course_number c) with
  | Ok d => d
  | Raise _ => 0%Z
  end.

Definition is_ug (c : ClassRow) : bool := (digit_of c <=? 6)%Z.

Definition is_grad (c : ClassRow) : bool := (7 <=? digit_of c)%Z.

Definition classes_of (df : list ClassRow) (i : string) : list ClassRow :=
  filter (fun c => String.eqb (instructor c) i) df.

Definition row_of (df : list ClassRow) (i : string) : WorkloadRow :=
  let cs := classes_of df i in
  let ug := filter is_ug cs in
  let gr := filter is_grad cs in
  {| last_name := fst (split_name i);
     first_name := snd (split_name i);
     ug_classes_count := count ug;
     ug_students := students ug;
     ug_supervision_count := count (filter is_supervision ug);
     ug_supervision_students := students (filter is_supervision ug);
     grad_classes_count := count gr;
     grad_students := students gr;
     grad_supervision_count := count (filter is_supervision gr);
     grad_supervision_students := students (filter is_supervision gr) |}.

Definition named (i : string) : bool := negb (String.eqb i "TBA").


End Workload.

(** ** Sample inputs *)

Module Sample.

(** Two instructors of the desktop variant: a lecture of Lee and a thesis
    supervision of Kim. *)
Definition raw_rows : list Desktop.RawCourseRow :=
  [Desktop.mkRaw "Paired" "Corporate Finance" "3" "FIN 350" "Lee, Amy" 30
     "paired" None "1001";
   Desktop.mkRaw "" "Thesis Research" "3" "FIN 799" "Kim, Bo" 5
     "" None "1002"].

Definition named_rows : list Desktop.NamedRow :=
  Desktop.process_instructor_names (Desktop.classify_courses raw_rows).

Definition lee_record : record :=
  [("Last Name", Str "Lee"); ("First Name", Str "Amy");
   ("Total # of UG classes", Int 1);
   ("Total # of UG students from Column D", Int 30);
   ("Total # of Grad supervion classes", Int 0);
   ("Total # of Grad student from Column J", Int 0);
   ("note", Str "paired")].

(** An independent-study section of the web-UI variant. *)
Definition class_rows : list Web.ClassRow :=
  [Web.mkClassRow "1234" "01" "IND" "699" "Lee Amy" "FIN 699 Study" 4].

Definition lee_workload : Web.WorkloadRow :=
  Web.mkWorkload "Lee" "Amy" 1 4 1 4 0 0 0 0.

(** A raw row with a given course code, and a class row with a given
    course number. *)
Definition course (code : string) : Desktop.RawCourseRow :=
  Desktop.mkRaw "" "Seminar" "3" code "Lee, Amy" 0 "" None "1001".

Definition numbered_class (number : string) : Web.ClassRow :=
  Web.mkClassRow "1234" "01" "LEC" number "Lee Amy" "Seminar" 0.

(** The same section and a graduate lecture of another instructor. *)
Definition two_class_rows : list Web.ClassRow :=
  [Web.mkClassRow "1234" "01" "IND" "699" "Lee Amy" "FIN 699 Study" 4;
   Web.mkClassRow "1235" "01" "LEC" "700" "Kim Bo" "FIN 700 Seminar" 9].

(** A browser of the web-UI variant that times out on class 1234 and
    shows 25 enrolled for any other class. *)
Definition page_showing (t : string) : Web.DetailPage :=
  Web.mkDetailPage (Ok tt) (fun _ => Ok (Web.mkElement (Ok t))) (Ok []).

Definition flaky : Web.Browser :=
  fun url =>
    if String.eqb url (Web.detail_url "1234") then Raise TimeoutException
    else Ok (page_showing "25").

(** A row of the desktop variant with a link, and a browser that loads no
    page. *)
Definition linked_row : Desktop.RawCourseRow :=
  Desktop.mkRaw "" "Corporate Finance" "3" "FIN 1001" "Lee, Amy" 0 ""
    (Some "https://webapps.sfsu.edu/public/classservices/1001") "1001".

Definition offline : Desktop.Browser :=
  fun _ => Raise WebDriverException.

End Sample.

(** ** Standalone three-digit tokens

    What [classify_courses] is shown to find in a course code: the first
    position where three digits stand between word boundaries. *)

Module Token.

Definition digit_at (s : string) (i : nat) : bool :=
  match String.get i s with
  | Some c => PyStr.is_digit c
  | None => false
  end.

Definition word_at (s : string) (i : nat) : bool :=
  match String.get i s with
  | Some c => PyStr.is_word c
  | None => false
  end.

(** Three digits start at position [i] of [s], no word character stands
    before them and none after them.  [before] tells whether a word
    character precedes [s] itself. *)
Definition token_from (before : bool) (s : string) (i : nat) : Prop :=
  digit_at s i = true
  /\ digit_at s (i + 1) = true
  /\ digit_at s (i + 2) = true
  /\ match i with
     | O => before
     | S j => word_at s j
     end = false
  /\ word_at s (i + 3) = false.

Definition token_at (s : string) (i : nat) : Prop := token_from false s i.

Definition first_token (s : string) (i : nat) : Prop :=
  token_at s i /\ forall j, (j < i)%nat -> ~ token_at s j.

Definition token_value (s : string) (i : nat) : Z :=
  PyStr.int_of_digits (String.substring i 3 s).

End Token.

(** ** Failed extractions

    What it means that the enrollment of a row cannot be read from its
    detail page. *)

Module Failure.

(** The web-UI variant: a selector finds no element, or an element whose
    text is not a number. *)
Definition selector_fails (page : Web.DetailPage) (sel : string) : Prop :=
  Web.find_element page sel = Raise NoSuchElementException
  \/ exists e t,
       Web.find_element page sel = Ok e
       /\ Web.text e = Ok t
       /\ PyStr.isdigit (PyStr.strip t) = false.

(** The parsed source cannot be read, or none of its [div]s is a number. *)
Definition fallback_fails (page : Web.DetailPage) : Prop :=
  (exists e, Web.soup_divs page = Raise e)
  \/ exists divs,
       Web.soup_divs page = Ok divs
       /\ forall d, In d divs -> PyStr.isdigit (PyStr.strip d) = false.

(** The page does not load, the wait for its content times out, or
    neither a selector nor the parsed source yields a number. *)
Definition web_fails (driver : Web.Browser) (class_nbr : string) : Prop :=
  (exists e, driver (Web.detail_url class_nbr) = Raise e)
  \/ exists page,
       driver (Web.detail_url class_nbr) = Ok page
       /\ ((exists e, Web.wait_content page = Raise e)
           \/ ((forall sel, In sel Web.enrollment_selectors ->
                            selector_fails page sel)
               /\ fallback_fails page)).

(** The desktop variant: the page does not load, no selector locates an
    element, or the text of the located element cannot be read or holds
    no digit. *)
Definition desktop_fails (driver : Desktop.Browser) (link : string) : Prop :=
  (exists e, driver link = Raise e)
  \/ exists page,
       driver link = Ok page
       /\ ((forall sel, In sel Desktop.selectors ->
                        exists e, Desktop.wait_located page sel = Raise e)
           \/ exists el,
                Desktop.first_located page Desktop.selectors = Some el
                /\ ((exists e, Desktop.text el = Raise e)
                    \/ exists t,
                         Desktop.text el = Ok t
                         /\ forall i,
                              Token.digit_at (PyStr.strip t) i = false)).

(** The fields of a row that the enrollment loops leave alone. *)
Definition same_class (r r' : Web.ClassRow) : Prop :=
  Web.class_nbr r' = Web.class_nbr r
  /\ Web.section r' = Web.section r
  /\ Web.component r' = Web.component r
  /\ Web.course_number r' = Web.course_number r
  /\ Web.instructor r' = Web.instructor r
  /\ Web.course_title r' = Web.course_title r.

Definition same_course (r r' : Desktop.RawCourseRow) : Prop :=
  Desktop.course_type r' = Desktop.course_type r
  /\ Desktop.title r' = Desktop.title r
  /\ Desktop.units r' = Desktop.units r
  /\ Desktop.instructor r' = Desktop.instructor r
  /\ Desktop.note r' = Desktop.note r
  /\ Desktop.course_link r' = Desktop.course_link r
  /\ Desktop.class_number r' = Desktop.class_number r.

End Failure.

(** ** Texts without white space *)

Module Text.

(** No character of the text is white space. *)
Fixpoint spaceless (s : string) : bool :=
  match s with
  | EmptyString => true
  | String c s' => negb (PyStr.is_space c) && spaceless s'
  end.

(** A token as [str.split()] yields them. *)
Definition token (s : string) : Prop := s <> "" /\ spaceless s = true.

End Text.

(** ** Course codes

    The shape of a course code: what the detail page is searched for. *)

Module Code.

Fixpoint all_of (p : ascii -> bool) (s : string) : bool :=
  match s with
  | EmptyString => true
  | String c s' => p c && all_of p s'
  end.

(** Two to four capital letters, white space, three digits and at most one
    capital letter: [dept], [gap], [number] and [suffix]. *)
Definition shaped (dept gap number suffix : string) : Prop :=
  all_of PyStr.is_upper dept = true
  /\ (2 <= String.length dept <= 4)%nat
  /\ all_of PyStr.is_space gap = true
  /\ gap <> ""
  /\ all_of PyStr.is_digit number = true
  /\ String.length number = 3%nat
  /\ all_of PyStr.is_upper suffix = true
  /\ (String.length suffix <= 1)%nat.

End Code.

(** ** A scenario for each variant

    One section of the desktop variant whose detail page shows 31 enrolled
    students, and the table and the summary rows of Lee in both variants. *)

Module Scenario.

Definition table : list Desktop.TableRow :=
  [Desktop.mkTableRow ["Lecture"; "Corporate Finance"; "3"; "1001"; "";
                       "Instructors: Amy Lee"] (Some "/detail/1001")].

Definition browser : Desktop.Browser :=
  fun _ => Ok (Desktop.mkDetailPage
                 (fun _ => Ok (Desktop.mkElement (Ok "Enrolled: 31 of 40")))
                 (Ok "<h1>FIN 350 Corporate Finance</h1>")).






End Scenario.

(** ** The frame that [main] summarizes *)

Module Pipeline.
Import Desktop.



End Pipeline.

(** ** The prompts of the desktop variant

    [get_user_inputs] of [sf_state_scraper_interactive.py].  The lines typed
    at the prompts are arguments; the file dialog is modelled by what it
    answers for the file name it is offered. *)

Module Prompt.

(** [c.upper()] on ASCII text. *)
Definition to_upper (c : ascii) : ascii :=
  if PyStr.is_lower c then ascii_of_nat (PyStr.code c - 32) else c.

Fixpoint upper (s : string) : string :=
  match s with
  | EmptyString => EmptyString
  | String c s' => String (to_upper c) (upper s')
  end.

(** [$]: the end of the string, or the line feed that ends it. *)
Definition at_end (s : string) : bool :=
  match s with
  | EmptyString => true
  | String c EmptyString => (PyStr.code c =? 10)%nat
  | _ => false
  end.

(** [re.match(r'^\d{4}$', term)]. *)
Definition match_term (term : string) : bool :=
  match term with
  | String d1 (String d2 (String d3 (String d4 rest))) =>
      PyStr.is_digit d1 && PyStr.is_digit d2 && PyStr.is_digit d3
      && PyStr.is_digit d4 && at_end rest
  | _ => false
  end.

(** [re.match(r'^[A-Z]{2,5}$', subject)]. *)
Definition match_subject (subject : string) : bool :=
  let (u, rest) := Desktop.take_upto 5 PyStr.is_upper subject in
  (2 <=? String.length u)%nat && at_end rest.

(** [pathlib.Path(text)]. *)
Record Path : Type := mkPath {
  path_text : string
}.

Record Config : Type := mkConfig {
  term : string;
  subject : string;
  classcat : string;
  output_file : Path
}.

(** The outcome of the [try] block around the dialog: the file that
    [asksaveasfilename] returns, empty when the dialog is cancelled, or an
    exception. *)
Inductive Dialog : Type :=
| Answered (output_file : string)
| DialogError.

Definition initialfile (subject term : string) : string :=
  PyStr.lower subject ++ "_" ++ term ++ "_instructor_load.xlsx".

Definition is_empty (s : string) : bool :=
  match s with EmptyString => true | _ => false end.

Definition get_user_inputs (term_line subject_line classcat_line : string)
  (asksaveasfilename : string -> Dialog) (confirm_line : string)
  : option Config :=
  let term := PyStr.strip term_line in
  if negb (match_term term) then None
  else
    let subject := upper (PyStr.strip subject_line) in
    if negb (match_subject subject) then None
    else
      let classcat := upper (PyStr.strip classcat_line) in
      let classcat := if is_empty classcat then "REG" else classcat in
      let output_path :=
        match asksaveasfilename (initialfile subject term) with
        | Answered output_file =>
            if is_empty output_file then None
            else Some (mkPath output_file)
        | DialogError => Some (mkPath (initialfile subject term))
        end in
      match output_path with
      | None => None
      | Some output_path =>
          let confirm := PyStr.lower (PyStr.strip confirm_line) in
          if negb (is_empty confirm)
             && negb (String.eqb confirm "y")
             && negb (String.eqb confirm "yes")
          then None
          else Some {| term := term;
                       subject := subject;
                       classcat := classcat;
                       output_file := output_path |}
      end.

(** A dialog that cannot be shown, and the configuration that results. *)
Definition no_display : string -> Dialog :=
  fun _ => DialogError.

Definition fin_2253 : Config :=
  {| term := "2253"; subject := "FIN"; classcat := "REG";
     output_file := mkPath "fin_2253_instructor_load.xlsx" |}.

End Prompt.

(** ** The deployment script

    [deploy.py].  The shell is modelled by the return code it answers for a
    command, given the commands that ran before it and their return codes;
    the state that the functions thread is this log.  A call returns a
    value or ends the process ([sys.exit]). *)

Module Deploy.

Definition Log : Type := list (string * Z).

Definition Shell : Type := Log -> string -> Z.

Inductive outcome (A : Type) : Type :=
| Return (a : A)
| Exit (code : Z).

Arguments Return {A} a.
Arguments Exit {A} code.

Definition M (A : Type) : Type := Log -> outcome A * Log.

Definition ret {A : Type} (a : A) : M A := fun log => (Return a, log).

Definition bind {A B : Type} (m : M A) (f : A -> M B) : M B :=
  fun log =>
    match m log with
    | (Return a, log') => f a log'
    | (Exit code, log') => (Exit code, log')
    end.

(** [try: m except: handler].  The bare [except] also catches the
    [SystemExit] that [sys.exit] raises. *)
Definition try_except {A : Type} (m handler : M A) : M A :=
  fun log =>
    match m log with
    | (Return a, log') => (Return a, log')
    | (Exit _, log') => handler log'
    end.

(** The return code of the command is what the callers could read of the
    result. *)
Definition run_command (sh : Shell) (cmd : string) (check : bool) : M Z :=
  fun log =>
    let returncode := sh log cmd in
    let log' := (log ++ [(cmd, returncode)])%list in
    if check && negb (returncode =? 0)%Z then (Exit 1%Z, log')
    else (Return returncode, log').

(** [f"{n}"] for an integer. *)
Definition str (n : Z) : string := NilZero.string_of_int (Z.to_int n).

Definition quote : string := String (ascii_of_nat 34) EmptyString.

Definition buildpacks : list string :=
  ["heroku/python";
   "https://github.com/heroku/heroku-buildpack-google-chrome.git";
   "https://github.com/heroku/heroku-buildpack-chromedriver.git"].

Definition buildpack_cmd (i : Z) (buildpack : string) : string :=
  "heroku buildpacks:add --index " ++ str i ++ " " ++ buildpack.

(** The loop over [enumerate(buildpacks, 1)], from the index [i] on. *)
Fixpoint add_buildpacks (sh : Shell) (i : Z) (bs : list string) : M unit :=
  match bs with
  | [] => ret tt
  | buildpack :: bs' =>
      bind (run_command sh (buildpack_cmd i buildpack) true) (fun _ =>
      add_buildpacks sh (i + 1) bs')
  end.

Definition commit_cmd (message : string) : string :=
  "git commit -m " ++ quote ++ message ++ quote.

(** The commit of [deploy_to_heroku], which the shell lets succeed. *)
Definition deploy_commit : string :=
  commit_cmd "Deploy to Heroku" ++ " || true".

(** The name of the application: the one that is given, or one made of
    the time stamp. *)
Definition heroku_app_name (timestamp : Z) (app_name : option string)
  : string :=
  match app_name with
  | None | Some EmptyString => "sf-state-scraper-" ++ str timestamp
  | Some n => n
  end.

(** [None] is the value [False] that is returned when the Heroku CLI is
    not found. *)
Definition deploy_to_heroku (sh : Shell) (timestamp : Z)
  (app_name : option string) : M (option string) :=
  fun log =>
    match run_command sh "heroku --version" true log with
    | (Exit _, log') => (Return None, log')
    | (Return _, log') =>
        let app_name := heroku_app_name timestamp app_name in
        bind (run_command sh ("heroku create " ++ app_name) true) (fun _ =>
        bind (add_buildpacks sh 1 buildpacks) (fun _ =>
        bind (run_command sh "git add ." true) (fun _ =>
        bind (run_command sh deploy_commit false) (fun _ =>
        bind (run_command sh "git push heroku main" true) (fun _ =>
        ret (Some ("https://" ++ app_name ++ ".herokuapp.com")))))))
          log'
    end.

Definition deploy_to_railway (sh : Shell) : M string :=
  bind (try_except (run_command sh "railway --version" true)
          (run_command sh "npm install -g @railway/cli" true)) (fun _ =>
  bind (run_command sh "railway login" true) (fun _ =>
  bind (run_command sh "railway init" true) (fun _ =>
  bind (run_command sh "railway variables set PORT=8501" true) (fun _ =>
  bind (run_command sh "railway up" true) (fun _ =>
  ret "https://railway.app"))))).

Definition deploy_to_render : M string := ret "https://render.com".

(** [git_exists] is [os.path.exists('.git')]. *)
Definition setup_git_if_needed (sh : Shell) (git_exists : bool) : M unit :=
  if negb git_exists then
    bind (run_command sh "git init" true) (fun _ =>
    bind (run_command sh "git add ." true) (fun _ =>
    bind (run_command sh (commit_cmd "Initial commit") true) (fun _ =>
    ret tt)))
  else ret tt.

Inductive Platform : Type := heroku | railway | render | all.

Definition main (sh : Shell) (timestamp : Z) (git_exists : bool)
  (platform : Platform) (app_name : option string) : M unit :=
  bind (setup_git_if_needed sh git_exists) (fun _ =>
  match platform with
  | heroku =>
      bind (deploy_to_heroku sh timestamp app_name) (fun _ => ret tt)
  | railway => bind (deploy_to_railway sh) (fun _ => ret tt)
  | render => bind deploy_to_render (fun _ => ret tt)
  | all =>
      bind (deploy_to_heroku sh timestamp app_name) (fun _ =>
      bind (deploy_to_railway sh) (fun _ =>
      bind deploy_to_render (fun _ => ret tt)))
  end).

(** The commands whose failure the script survives: the two checks of a
    CLI and the commit of the Heroku deployment. *)
Definition tolerated (cmd : string) : bool :=
  String.eqb cmd "heroku --version"
  || String.eqb cmd "railway --version"
  || String.eqb cmd deploy_commit.

Definition passed (entry : string * Z) : Prop :=
  snd entry = 0%Z \/ tolerated (fst entry) = true.

(** Every command before the last one passed, and if the process is ended,
    then with code 1 and by a last command that failed. *)
Definition stops_at_failure {A : Type} (m : M A) : Prop :=
  forall log,
    Forall passed log ->
    match m log with
    | (Return _, log') => Forall passed log'
    | (Exit code, log') =>
        code = 1%Z
        /\ exists done cmd returncode,
             log' = (done ++ [(cmd, returncode)])%list
             /\ Forall passed done
             /\ returncode <> 0%Z
    end.

(** The commands of a Heroku deployment, but for the commit and the
    push. *)
Definition heroku_commands (app_name : string) : list string :=
  ["heroku --version";
   "heroku create " ++ app_name;
   "heroku buildpacks:add --index 1 heroku/python";
   "heroku buildpacks:add --index 2 https://github.com/heroku/heroku-buildpack-google-chrome.git";
   "heroku buildpacks:add --index 3 https://github.com/heroku/heroku-buildpack-chromedriver.git";
   "git add ."].

(** A shell without the Heroku CLI: every other command succeeds. *)
Definition no_heroku : Shell :=
  fun _ cmd => if String.prefix "heroku" cmd then 127%Z else 0%Z.

End Deploy.

(** ** Occurrences of a word *)

Module Occurs.

(** [word] occurs in [text] when the case of the letters is ignored. *)
Definition occurs (word text : string) : Prop :=
  exists pre post, PyStr.lower text = pre ++ PyStr.lower word ++ post.

End Occurs.

(** ** Totals of a summary row *)

Module Totals.

(** The classes and the students of a row of the desktop summary, over the
    four buckets. *)
Definition classes (r : record) : Z :=
  (metric r "Total # of UG classes"
   + metric r "Total # of UG supervion classes"
   + metric r "Total # of Grad classes"
   + metric r "Total # of Grad supervion classes")%Z.

Definition students (r : record) : Z :=
  (metric r "Total # of UG students from Column D"
   + metric r "Total # of UG students from Column F"
   + metric r "Total # of Grad students from Colum H"
   + metric r "Total # of Grad student from Column J")%Z.



End Totals.

(** ** Letters *)

Module Letters.

(** An ASCII letter of either case. *)
Definition is_letter (c : ascii) : bool :=
  PyStr.is_upper c || PyStr.is_lower c.

End Letters.

(** * Properties *)

(** ** Sorted sets *)

Section SortedSetFacts.

Context {A : Type} (eqb ltb : A -> A -> bool).

Hypothesis eqb_spec : forall x y, eqb x y = true <-> x = y.
Hypothesis ltb_irrefl : forall x, ltb x x = false.
Hypothesis ltb_trans :
  forall x y z, ltb x y = true -> ltb y z = true -> ltb x z = true.
Hypothesis ltb_total :
  forall x y, ltb x y = true \/ x = y \/ ltb y x = true.

Lemma mem_In (x : A) (l : list A) : mem eqb x l = true <-> In x l.
Proof.
  unfold mem. rewrite existsb_exists. split.
  - intros [y [Hy He]]. apply eqb_spec in He. now subst.
  - intros H. exists x. split; [assumption | now apply eqb_spec].
Qed.

Lemma mem_not_In (x : A) (l : list A) : mem eqb x l = false <-> ~ In x l.
Proof.
  rewrite <- mem_In. destruct (mem eqb x l); split; congruence.
Qed.

Lemma In_dedup (x : A) (l : list A) : In x (dedup eqb l) <-> In x l.
Proof.
  induction l as [|y l IH]; simpl; [tauto|].
  destruct (mem eqb y l) eqn:Hm.
  - apply mem_In in Hm. rewrite IH. split; [tauto|].
    intros [->|H]; assumption.
  - simpl. rewrite IH. tauto.
Qed.

Lemma NoDup_dedup (l : list A) : NoDup (dedup eqb l).
Proof.
  induction l as [|y l IH]; simpl; [constructor|].
  destruct (mem eqb y l) eqn:Hm; [assumption|].
  constructor; [|assumption].
  rewrite In_dedup. now apply mem_not_In.
Qed.

Lemma In_insert (x y : A) (l : list A) :
  In y (insert ltb x l) <-> y = x \/ In y l.
Proof.
  induction l as [|z l IH]; simpl.
  - intuition.
  - destruct (ltb z x); simpl; rewrite ?IH; intuition.
Qed.

Lemma In_sort (x : A) (l : list A) : In x (sort ltb l) <-> In x l.
Proof.
  induction l as [|y l IH]; simpl; [tauto|].
  rewrite In_insert, IH. intuition.
Qed.

Lemma In_sort_uniq (x : A) (l : list A) :
  In x (sort_uniq eqb ltb l) <-> In x l.
Proof.
  unfold sort_uniq. now rewrite In_sort, In_dedup.
Qed.

Lemma insert_sorted (x : A) (l : list A) :
  ~ In x l ->
  StronglySorted (fun x y => ltb x y = true) l -> StronglySorted (fun x y => ltb x y = true) (insert ltb x l).
Proof.
  intros Hx Hs. induction Hs as [|z l Hs IH Hz]; simpl.
  - repeat constructor.
  - destruct (ltb z x) eqn:Hzx.
    + constructor.
      * apply IH. intros H. apply Hx. now right.
      * rewrite Forall_forall in *. intros y Hy.
        apply In_insert in Hy. destruct Hy as [->|Hy]; [exact Hzx|].
        now apply Hz.
    + assert (Hxz : ltb x z = true).
      { destruct (ltb_total x z) as [H|[H|H]]; [exact H| |].
        - exfalso. apply Hx. left. now symmetry.
        - congruence. }
      constructor.
      * now constructor.
      * constructor; [exact Hxz|].
        rewrite Forall_forall in *. intros y Hy.
        eapply ltb_trans; [exact Hxz|]. now apply Hz.
Qed.

Lemma sort_sorted (l : list A) :
  NoDup l -> StronglySorted (fun x y => ltb x y = true) (sort ltb l).
Proof.
  induction 1 as [|x l Hx Hn IH]; simpl; [constructor|].
  apply insert_sorted; [|assumption].
  now rewrite In_sort.
Qed.

Lemma sort_uniq_sorted (l : list A) :
  StronglySorted (fun x y => ltb x y = true) (sort_uniq eqb ltb l).
Proof. apply sort_sorted, NoDup_dedup. Qed.

(** A strictly sorted list is determined by its elements. *)
Lemma sorted_unique (l l' : list A) :
  StronglySorted (fun x y => ltb x y = true) l -> StronglySorted (fun x y => ltb x y = true) l' ->
  (forall x, In x l <-> In x l') -> l = l'.
Proof.
  intros Hs. revert l'.
  induction Hs as [|x l Hs IH Hx]; intros l' Hs' Hin.
  - destruct l' as [|y l']; [reflexivity|].
    exfalso. apply (Hin y). now left.
  - destruct Hs' as [|y l' Hs' Hy].
    + exfalso. apply (Hin x). now left.
    + rewrite Forall_forall in Hx, Hy.
      assert (Hxy : x = y).
      { destruct (proj1 (Hin x) (or_introl eq_refl)) as [H|H];
          [now symmetry|].
        destruct (proj2 (Hin y) (or_introl eq_refl)) as [H'|H'];
          [assumption|].
        apply Hy in H. apply Hx in H'.
        pose proof (ltb_trans _ _ _ H H') as Hyy.
        rewrite ltb_irrefl in Hyy. discriminate. }
      subst y. f_equal. apply IH; [assumption|].
      intros z. split; intros Hz.
      * destruct (proj1 (Hin z) (or_intror Hz)) as [H|H]; [|assumption].
        subst z. apply Hx in Hz. cbv beta in Hz.
        rewrite ltb_irrefl in Hz. discriminate.
      * destruct (proj2 (Hin z) (or_intror Hz)) as [H|H]; [|assumption].
        subst z. apply Hy in Hz. cbv beta in Hz.
        rewrite ltb_irrefl in Hz. discriminate.
Qed.

Lemma sort_uniq_ext (l l' : list A) :
  (forall x, In x l <-> In x l') ->
  sort_uniq eqb ltb l = sort_uniq eqb ltb l'.
Proof.
  intros H. apply sorted_unique; try apply sort_uniq_sorted.
  intros x. now rewrite !In_sort_uniq.
Qed.

Lemma sort_uniq_perm (l l' : list A) :
  Permutation l l' -> sort_uniq eqb ltb l = sort_uniq eqb ltb l'.
Proof.
  intros H. apply sort_uniq_ext. intros x. split; apply Permutation_in;
    [assumption | now apply Permutation_sym].
Qed.

Lemma filter_sorted (p : A -> bool) (l : list A) :
  StronglySorted (fun x y => ltb x y = true) l -> StronglySorted (fun x y => ltb x y = true) (filter p l).
Proof.
  induction 1 as [|x l Hs IH Hx]; simpl; [constructor|].
  destruct (p x); [|assumption].
  constructor; [assumption|].
  rewrite Forall_forall in *. intros y Hy.
  apply filter_In in Hy. now apply Hx.
Qed.

(** The sorted set of a list drawn from a sorted universe. *)
Lemma sort_uniq_filter (all l : list A) :
  StronglySorted (fun x y => ltb x y = true) all -> (forall x, In x l -> In x all) ->
  sort_uniq eqb ltb l = filter (fun x => mem eqb x l) all.
Proof.
  intros Hs Hall. apply sorted_unique.
  - apply sort_uniq_sorted.
  - now apply filter_sorted.
  - intros x. rewrite In_sort_uniq, filter_In, mem_In. split.
    + intros H. split; [now apply Hall | assumption].
    + tauto.
Qed.


End SortedSetFacts.

(** ** The order of strings and of group keys *)

Lemma str_eqb_spec (x y : string) : String.eqb x y = true <-> x = y.
Proof. apply String.eqb_eq. Qed.

Lemma str_ltb_lt (x y : string) : PyStr.ltb x y = true <-> String_as_OT.lt x y.
Proof.
  unfold PyStr.ltb, String_as_OT.lt.
  destruct (String_as_OT.compare x y); split; congruence.
Qed.

Lemma str_ltb_irrefl (x : string) : PyStr.ltb x x = false.
Proof.
  destruct (PyStr.ltb x x) eqn:H; [|reflexivity].
  apply str_ltb_lt in H. exfalso.
  exact (StrictOrder_Irreflexive (R := String_as_OT.lt) x H).
Qed.

Lemma str_ltb_trans (x y z : string) :
  PyStr.ltb x y = true -> PyStr.ltb y z = true -> PyStr.ltb x z = true.
Proof.
  rewrite !str_ltb_lt. apply (StrictOrder_Transitive (R := String_as_OT.lt)).
Qed.

Lemma str_ltb_total (x y : string) :
  PyStr.ltb x y = true \/ x = y \/ PyStr.ltb y x = true.
Proof.
  rewrite !str_ltb_lt.
  destruct (String_as_OT.compare_spec x y) as [H|H|H]; auto.
Qed.

Lemma key_eqb_spec (x y : Desktop.key) : Desktop.key_eqb x y = true <-> x = y.
Proof.
  destruct x as [a b], y as [c d]. unfold Desktop.key_eqb. simpl.
  rewrite andb_true_iff, !String.eqb_eq. split.
  - intros [-> ->]. reflexivity.
  - intros H. inversion H. auto.
Qed.

Lemma key_ltb_irrefl (x : Desktop.key) : Desktop.key_ltb x x = false.
Proof.
  unfold Desktop.key_ltb. rewrite !str_ltb_irrefl.
  now rewrite andb_false_r.
Qed.

Lemma key_ltb_trans (x y z : Desktop.key) :
  Desktop.key_ltb x y = true -> Desktop.key_ltb y z = true ->
  Desktop.key_ltb x z = true.
Proof.
  destruct x as [a b], y as [c d], z as [e f]. unfold Desktop.key_ltb. simpl.
  rewrite !orb_true_iff, !andb_true_iff, !String.eqb_eq.
  intros [H1|[-> H1]] [H2|[-> H2]].
  - left. eapply str_ltb_trans; eassumption.
  - now left.
  - now left.
  - right. split; [reflexivity|]. eapply str_ltb_trans; eassumption.
Qed.

Lemma key_ltb_total (x y : Desktop.key) :
  Desktop.key_ltb x y = true \/ x = y \/ Desktop.key_ltb y x = true.
Proof.
  destruct x as [a b], y as [c d]. unfold Desktop.key_ltb. simpl.
  rewrite !orb_true_iff, !andb_true_iff, !String.eqb_eq.
  destruct (str_ltb_total a c) as [H|[->|H]]; auto.
  destruct (str_ltb_total b d) as [H|[->|H]]; auto.
Qed.

(** ** The desktop summary *)

Section DesktopSummary.
Import Desktop Schema.

Lemma bucket_cases (r : NamedRow) : In (bucket r) all_buckets.
Proof.
  unfold bucket, all_buckets.
  destruct (level (classified r)), (supervision (classified r)); simpl; auto.
Qed.

Lemma all_buckets_sorted :
  StronglySorted (fun x y => PyStr.ltb x y = true) all_buckets.
Proof.
  unfold all_buckets.
  repeat (constructor; [|repeat constructor; reflexivity]).
  constructor.
Qed.

Lemma observed_buckets_eq (df : list NamedRow) :
  observed_buckets df = filter (observed df) all_buckets.
Proof.
  unfold observed_buckets, observed.
  apply (sort_uniq_filter String.eqb PyStr.ltb str_eqb_spec str_ltb_irrefl
           str_ltb_trans str_ltb_total).
  - apply all_buckets_sorted.
  - intros x Hx. apply in_map_iff in Hx. destruct Hx as [r [<- _]].
    apply bucket_cases.
Qed.

Lemma sum_ones {B : Type} (l : list B) :
  sum_Z (map (fun _ => 1%Z) l) = Z.of_nat (List.length l).
Proof.
  induction l as [|x l IH]; [reflexivity|].
  cbn [map sum_Z fold_right List.length]. fold (sum_Z (map (fun _ : B => 1%Z) l)).
  rewrite IH. lia.
Qed.

Lemma pivot_cell_class (df : list NamedRow) (k : key) (b : string) :
  pivot_cell df k ("class_count", b) = Int (class_count df k b).
Proof.
  unfold pivot_cell, class_count, in_bucket. cbn [fst snd].
  destruct (filter _ (group df k)) as [|r g] eqn:E; [reflexivity|].
  f_equal. rewrite <- (sum_ones (r :: g)). f_equal.
Qed.

Lemma pivot_cell_student (df : list NamedRow) (k : key) (b : string) :
  pivot_cell df k ("student_count", b) = Int (student_count df k b).
Proof.
  unfold pivot_cell, student_count, in_bucket. cbn [fst snd].
  destruct (filter _ (group df k)) as [|r g] eqn:E; reflexivity.
Qed.

Lemma lookup_note_group (df : list NamedRow) (k : key) :
  In k (group_keys df) ->
  lookup_note (notes df) k = Some (collect_notes (group_notes df k)).
Proof.
  unfold lookup_note, notes, group_notes.
  generalize (group_keys df) as l.
  induction l as [|k' l IH]; intros Hin; [destruct Hin|].
  cbn [map find fst].
  destruct (key_eqb k' k) eqn:E.
  - apply key_eqb_spec in E. subst k'. reflexivity.
  - destruct Hin as [->|Hin].
    + rewrite (proj2 (key_eqb_spec k k) eq_refl) in E. discriminate.
    + now apply IH.
Qed.

(** [create_summary_table] computes the summary that the schema
    describes. *)
Lemma create_summary_table_summary (df : list NamedRow) :
  create_summary_table df = summary df.
Proof.
  unfold create_summary_table, summary, summary_columns, summary_record.
  unfold pivot_table, pivot_columns.
  rewrite observed_buckets_eq. unfold all_buckets, present.
  cbn [filter schema snd].
  destruct (observed df "grad_lecture"), (observed df "grad_superv"),
    (observed df "ug_lecture"), (observed df "ug_superv").
  all: cbn -[pivot_cell group_keys notes cell_of].
  all: unfold select, fillna_column, fillna, merge, rename;
    cbn [rows columns]; f_equal.
  all: rewrite !map_map; apply map_ext_in; intros [l f] Hk.
  all: rewrite ?pivot_cell_class, ?pivot_cell_student.
  all: cbn -[pivot_cell group_keys notes cell_of lookup_note].
  all: rewrite (lookup_note_group df (l, f) Hk); reflexivity.
Qed.

Lemma rows_create_summary_table (df : list NamedRow) (r : record) :
  In r (rows (create_summary_table df)) <->
  exists k, In k (group_keys df) /\ r = summary_record df k.
Proof.
  rewrite create_summary_table_summary. unfold summary. cbn [rows].
  rewrite in_map_iff. split; intros [k H]; exists k; intuition.
Qed.

Lemma In_group_keys (df : list NamedRow) (k : key) :
  In k (group_keys df) <-> exists r, In r df /\ key_of r = k.
Proof.
  unfold group_keys.
  rewrite (In_sort_uniq key_eqb key_ltb key_eqb_spec), in_map_iff.
  split; intros [r H]; exists r; intuition.
Qed.

Lemma record_key_summary_record (df : list NamedRow) (k : key) :
  record_key (summary_record df k) = Some k.
Proof.
  destruct k as [l f]. unfold summary_record, present. cbn [filter schema snd].
  split_observed df; reflexivity.
Qed.

Lemma columns_summary_record (df : list NamedRow) (k : key) :
  map fst (summary_record df k) = summary_columns df.
Proof.
  unfold summary_record, summary_columns. rewrite map_map. reflexivity.
Qed.

(** A cell of a summary record: the columns that are present hold the
    value the schema gives them, the others are absent. *)
Lemma get_summary_record (df : list NamedRow) (k : key) (c : string)
  (kd : kind) :
  In (c, kd) schema ->
  get c (summary_record df k) =
  if present df (c, kd) then Some (cell_of df k kd) else None.
Proof.
  intros H. unfold summary_record, present. cbn [filter schema snd].
  schema_cases H; cbn [snd]; split_observed df; reflexivity.
Qed.

End DesktopSummary.

(** ** Metrics of the desktop summary *)

Section DesktopMetrics.
Import Desktop Schema.

Lemma row_of_summary (df : list NamedRow) (r : record) (k : key) :
  In r (rows (create_summary_table df)) -> record_key r = Some k ->
  In k (group_keys df) /\ r = summary_record df k.
Proof.
  intros Hr Hk. apply rows_create_summary_table in Hr.
  destruct Hr as [k' [Hin ->]].
  rewrite record_key_summary_record in Hk. inversion Hk. subst. auto.
Qed.






End DesktopMetrics.

(** ** The web-UI workload *)

Section WebWorkload.
Import Web Workload.

Lemma leading_digits_eq (cs : list ClassRow) :
  leading_digits cs =
  if forallb numbered cs then Ok (map (fun c => (c, digit_of c)) cs)
  else Raise ValueError.
Proof.
  induction cs as [|c cs IH]; [reflexivity|].
  cbn [leading_digits forallb map]. unfold numbered at 1, digit_of at 1.
  unfold leading_digit in *.
  destruct (course_number c) as [|ch rest]; [reflexivity|].
  destruct (PyStr.is_digit ch); [|reflexivity].
  cbn [bind andb]. rewrite IH.
  destruct (forallb numbered cs); reflexivity.
Qed.

Lemma filter_digits (p : Z -> bool) (cs : list ClassRow) :
  map fst (filter (fun cd : ClassRow * Z => p (snd cd))
                  (map (fun c => (c, digit_of c)) cs))
  = filter (fun c => p (digit_of c)) cs.
Proof.
  induction cs as [|c cs IH]; [reflexivity|].
  cbn [map filter snd]. destruct (p (digit_of c)); cbn [map fst];
    now rewrite IH.
Qed.

Lemma workload_of_eq (df : list ClassRow) (i : string) :
  workload_of df i =
  if forallb numbered (classes_of df i) then Ok (row_of df i)
  else Raise ValueError.
Proof.
  unfold workload_of. fold (classes_of df i). rewrite leading_digits_eq.
  destruct (forallb numbered (classes_of df i)); [|reflexivity].
  cbn [bind]. unfold row_of, ug_classes, grad_classes.
  rewrite (filter_digits (fun d => (d <=? 6)%Z)).
  rewrite (filter_digits (fun d => (7 <=? d)%Z)).
  reflexivity.
Qed.

Lemma workloads_eq (df : list ClassRow) (names : list string) :
  workloads df names =
  if forallb (fun i => forallb numbered (classes_of df i)) (filter named names)
  then Ok (map (row_of df) (filter named names))
  else Raise ValueError.
Proof.
  induction names as [|i names IH]; [reflexivity|].
  cbn [workloads filter].
  replace (named i) with (negb (String.eqb i "TBA")) by reflexivity.
  destruct (String.eqb i "TBA"); cbn [negb]; [exact IH|].
  cbn [forallb map]. rewrite workload_of_eq.
  destruct (forallb numbered (classes_of df i)); [|reflexivity].
  cbn [bind andb]. rewrite IH.
  destruct (forallb _ (filter named names)); reflexivity.
Qed.




End WebWorkload.

(** ** Reordering the rows *)

Section Reordering.

Context {A : Type}.

Lemma filter_perm (p : A -> bool) (l l' : list A) :
  Permutation l l' -> Permutation (filter p l) (filter p l').
Proof.
  induction 1 as [|x l l' H IH|x y l|l l' l'' H1 IH1 H2 IH2]; cbn [filter].
  - constructor.
  - destruct (p x); [now constructor | assumption].
  - destruct (p x), (p y); try reflexivity. apply perm_swap.
  - now transitivity (filter p l').
Qed.

Lemma sum_Z_perm (l l' : list Z) :
  Permutation l l' -> sum_Z l = sum_Z l'.
Proof.
  unfold sum_Z.
  induction 1 as [|x l l' H IH|x y l|l l' l'' H1 IH1 H2 IH2];
    cbn [fold_right]; lia.
Qed.

Lemma forallb_perm (p : A -> bool) (l l' : list A) :
  Permutation l l' -> forallb p l = forallb p l'.
Proof.
  induction 1 as [|x l l' H IH|x y l|l l' l'' H1 IH1 H2 IH2];
    cbn [forallb]; try congruence.
  destruct (p x), (p y); reflexivity.
Qed.

Lemma mem_perm (eqb : A -> A -> bool) (x : A) (l l' : list A) :
  Permutation l l' -> mem eqb x l = mem eqb x l'.
Proof.
  unfold mem.
  induction 1 as [|y l l' H IH|y z l|l l' l'' H1 IH1 H2 IH2];
    cbn [existsb]; try congruence.
  destruct (eqb x y), (eqb x z); reflexivity.
Qed.

Variable eqb : A -> A -> bool.
Hypothesis eqb_spec : forall x y, eqb x y = true <-> x = y.

Lemma In_unique (x : A) (l : list A) : In x (unique eqb l) <-> In x l.
Proof.
  induction l as [|y l IH]; [reflexivity|].
  cbn [unique In]. rewrite filter_In, IH. split.
  - tauto.
  - intros [H|H]; [now left|].
    destruct (eqb y x) eqn:E.
    + left. now apply eqb_spec.
    + right. split; [assumption | reflexivity].
Qed.

Lemma NoDup_unique (l : list A) : NoDup (unique eqb l).
Proof.
  induction l as [|y l IH]; cbn [unique]; constructor.
  - rewrite filter_In. intros [_ H]. cbv beta in H.
    rewrite (proj2 (eqb_spec y y) eq_refl) in H. discriminate.
  - now apply NoDup_filter.
Qed.

Lemma unique_perm (l l' : list A) :
  Permutation l l' -> Permutation (unique eqb l) (unique eqb l').
Proof.
  intros H. apply NoDup_Permutation; try apply NoDup_unique.
  intros x. rewrite !In_unique. split; apply Permutation_in;
    [assumption | now apply Permutation_sym].
Qed.



End Reordering.

(** ** The summary schema *)

Section SummarySchema.
Import Desktop Schema.

Lemma summarize_rows (data : list Web.ClassRow) (out : DataFrame) :
  Web.summarize data = Some out ->
  exists ws, Web.workload_data data = Ok ws /\ out = Web.workload_df ws.
Proof.
  unfold Web.summarize. destruct (Web.workload_data data) as [ws|e];
    [|discriminate].
  intros H. inversion H. now exists ws.
Qed.

(** C5, as amended: the summary of the desktop variant has the columns of
    the fixed order whose bucket occurs in the input (the names and the
    note always), every row has exactly these cells, and a bucket column
    that is present holds 0 for an instructor without a row in the bucket;
    the summary of the web-UI variant has the ten columns before [note],
    and none when it has no row. *)
Theorem summary_schema_present_columns
  (df : list NamedRow) (data : list Web.ClassRow) (out : DataFrame) :
  (columns (create_summary_table df) = map fst (filter (present df) schema)
   /\ map fst schema = column_order
   /\ (forall r, In r (rows (create_summary_table df)) ->
       map fst r = columns (create_summary_table df))
   /\ (forall r k c b,
       In r (rows (create_summary_table df)) -> record_key r = Some k ->
       In (c, ClassCount b) schema \/ In (c, StudentCount b) schema ->
       observed df b = true -> in_bucket df k b = [] ->
       get c r = Some (Int 0)))
  /\ (Web.summarize data = Some out ->
      columns out = match rows out with
                    | [] => []
                    | _ => Web.workload_columns
                    end
      /\ (forall r, In r (rows out) -> map fst r = Web.workload_columns)
      /\ Web.workload_columns = removelast column_order).
Proof.
  split.
  - split; [now rewrite create_summary_table_summary|].
    split; [reflexivity|]. split.
    + intros r Hr. apply rows_create_summary_table in Hr.
      destruct Hr as [k [_ ->]]. rewrite create_summary_table_summary.
      apply columns_summary_record.
    + intros r k c b Hr Hk Hc Hobs Hnil.
      destruct (row_of_summary df r k Hr Hk) as [_ ->].
      destruct Hc as [Hc|Hc]; rewrite (get_summary_record df k c _ Hc);
        unfold present; cbn [snd]; rewrite Hobs; cbn [cell_of];
        unfold class_count, student_count; rewrite Hnil; reflexivity.
  - intros H. apply summarize_rows in H. destruct H as [ws [_ ->]].
    unfold Web.workload_df. cbn [columns rows]. split; [|split].
    + destruct ws; reflexivity.
    + intros r Hr. apply in_map_iff in Hr. destruct Hr as [w [<- _]].
      reflexivity.
    + reflexivity.
Qed.

Lemma summary_schema_present_columns_witness :
  get "Total # of Grad supervion classes" Sample.lee_record = Some (Int 0)
  /\ columns (Web.workload_df [Sample.lee_workload]) = Web.workload_columns.
Proof.
  pose proof (summary_schema_present_columns Sample.named_rows
                Sample.class_rows (Web.workload_df [Sample.lee_workload]))
    as [[_ [_ [_ Hzero]]] Hweb].
  split.
  - apply (Hzero Sample.lee_record ("Lee", "Amy")
             "Total # of Grad supervion classes" "grad_superv").
    + vm_compute. right. left. reflexivity.
    + reflexivity.
    + left. vm_compute. tauto.
    + reflexivity.
    + reflexivity.
  - apply (proj1 (Hweb eq_refl)).
Defined.

(** C5, as stated, fails: a frame without supervision rows has no
    supervision columns. *)
Lemma summary_schema_counterexample :
  columns (Desktop.summarize [Desktop.mkRaw "" "Corporate Finance" "3"
                                "FIN 350" "Lee, Amy" 30 "" None "1001"])
  <> Desktop.column_order.
Proof. vm_compute. discriminate. Qed.

End SummarySchema.

(** ** Sums over the buckets *)

Section BucketSums.
Import Desktop Schema.





End BucketSums.

(** ** Reordering the input *)

Section Reordered.
Import Desktop Schema.

Lemma group_keys_perm (df df' : list NamedRow) :
  Permutation df df' -> group_keys df = group_keys df'.
Proof.
  intros H. unfold group_keys.
  apply (sort_uniq_perm key_eqb key_ltb key_eqb_spec key_ltb_irrefl
           key_ltb_trans key_ltb_total).
  now apply Permutation_map.
Qed.

Lemma collect_notes_perm (s s' : list string) :
  Permutation s s' -> collect_notes s = collect_notes s'.
Proof.
  intros H. unfold collect_notes. f_equal.
  apply (sort_uniq_perm String.eqb PyStr.ltb str_eqb_spec str_ltb_irrefl
           str_ltb_trans str_ltb_total).
  now apply filter_perm.
Qed.

Lemma cell_of_perm (df df' : list NamedRow) (k : key) (c : kind) :
  Permutation df df' -> cell_of df k c = cell_of df' k c.
Proof.
  intros H.
  assert (Hg : Permutation (group df k) (group df' k))
    by now apply filter_perm.
  destruct c; cbn [cell_of]; try reflexivity; f_equal.
  - unfold class_count, in_bucket. f_equal.
    now apply Permutation_length, filter_perm.
  - unfold student_count, in_bucket.
    now apply sum_Z_perm, Permutation_map, filter_perm.
  - apply collect_notes_perm. unfold group_notes.
    now apply Permutation_map.
Qed.

Lemma summary_perm (df df' : list NamedRow) :
  Permutation df df' -> summary df = summary df'.
Proof.
  intros H. unfold summary, summary_columns, summary_record.
  assert (Hp : filter (present df) schema = filter (present df') schema).
  { apply filter_ext. intros [c kd]. unfold present, observed. cbn [snd].
    destruct kd; try reflexivity;
      now apply mem_perm, Permutation_map. }
  rewrite Hp, (group_keys_perm df df' H). f_equal.
  apply map_ext. intros k. apply map_ext. intros c.
  now rewrite (cell_of_perm df df' k (snd c) H).
Qed.

Lemma classes_of_perm (data data' : list Web.ClassRow) (i : string) :
  Permutation data data' ->
  Permutation (Workload.classes_of data i) (Workload.classes_of data' i).
Proof. apply filter_perm. Qed.

Lemma count_perm (l l' : list Web.ClassRow) :
  Permutation l l' -> Web.count l = Web.count l'.
Proof. intros H. unfold Web.count. now rewrite (Permutation_length H). Qed.

Lemma students_perm (l l' : list Web.ClassRow) :
  Permutation l l' -> Web.students l = Web.students l'.
Proof.
  intros H. unfold Web.students. now apply sum_Z_perm, Permutation_map.
Qed.

Lemma row_of_perm (data data' : list Web.ClassRow) (i : string) :
  Permutation data data' -> Workload.row_of data i = Workload.row_of data' i.
Proof.
  intros H. pose proof (classes_of_perm data data' i H) as Hc.
  unfold Workload.row_of. cbv zeta.
  f_equal; (apply count_perm || apply students_perm);
    repeat apply filter_perm; assumption.
Qed.

(** C6: the summary of the desktop variant does not depend on the order
    of the rows; in the web-UI variant reordering the rows reorders the
    instructors, each with the same eight metrics, and an input that makes
    the run fail does so in any order. *)
Theorem aggregation_order_independent
  (df df' : list NamedRow) (data data' : list Web.ClassRow) :
  (Permutation df df' ->
   create_summary_table df = create_summary_table df')
  /\ (Permutation data data' ->
      match Web.workload_data data, Web.workload_data data' with
      | Ok ws, Ok ws' => Permutation ws ws'
      | Raise e, Raise e' => e = e'
      | _, _ => False
      end).
Proof.
  split.
  - intros H. rewrite !create_summary_table_summary. now apply summary_perm.
  - intros H. unfold Web.workload_data. rewrite !workloads_eq.
    assert (Hn : Permutation
                   (filter Workload.named
                      (unique String.eqb (map Web.instructor data)))
                   (filter Workload.named
                      (unique String.eqb (map Web.instructor data')))).
    { apply filter_perm, (unique_perm String.eqb str_eqb_spec).
      now apply Permutation_map. }
    set (names := filter Workload.named
                    (unique String.eqb (map Web.instructor data))) in *.
    set (names' := filter Workload.named
                     (unique String.eqb (map Web.instructor data'))) in *.
    assert (He : forall i,
               forallb Workload.numbered (Workload.classes_of data' i)
               = forallb Workload.numbered (Workload.classes_of data i)).
    { intros i. now apply forallb_perm, classes_of_perm, Permutation_sym. }
    assert (Hf : forallb (fun i => forallb Workload.numbered
                                     (Workload.classes_of data' i)) names'
                 = forallb (fun i => forallb Workload.numbered
                                       (Workload.classes_of data i)) names).
    { rewrite (forallb_perm _ names names' Hn).
      generalize names'. intros l. induction l as [|i l IH];
        [reflexivity|].
      cbn [forallb]. now rewrite IH, He. }
    rewrite Hf.
    destruct (forallb _ names); [|reflexivity].
    replace (map (Workload.row_of data') names')
      with (map (Workload.row_of data) names').
    + now apply Permutation_map.
    + apply map_ext. intros i. now apply row_of_perm.
Qed.

End Reordered.

Lemma aggregation_order_independent_witness :
  Desktop.create_summary_table Sample.named_rows
  = Desktop.create_summary_table (rev Sample.named_rows)
  /\ match Web.workload_data Sample.two_class_rows,
           Web.workload_data (rev Sample.two_class_rows) with
     | Ok ws, Ok ws' => Permutation ws ws'
     | Raise e, Raise e' => e = e'
     | _, _ => False
     end.
Proof.
  pose proof (aggregation_order_independent Sample.named_rows
                (rev Sample.named_rows) Sample.two_class_rows
                (rev Sample.two_class_rows)) as [Hd Hw].
  split.
  - apply Hd. vm_compute. apply perm_swap.
  - apply Hw. vm_compute. apply perm_swap.
Defined.

(** ** The notes of an instructor *)

Section Notes.
Import Desktop Schema.



End Notes.

(** ** The level of a course *)

Section Level.
Import Desktop Token.

Lemma token_from_empty (pw : bool) (i : nat) : ~ token_from pw "" i.
Proof.
  intros [H _]. unfold digit_at in H. destruct i; discriminate.
Qed.

Lemma match_at_token (pw : bool) (s g : string) :
  match_at pw s = Some g <->
  token_from pw s 0 /\ g = String.substring 0 3 s.
Proof.
  unfold match_at, token_from, digit_at, word_at, boundary_after.
  destruct s as [|d1 [|d2 [|d3 rest]]]; cbn [String.get Nat.add Nat.eqb].
  1-3: split; [discriminate | intros [[H1 [H2 [H3 _]]] _]; discriminate].
  cbn [String.substring].
  replace (String.substring 0 0 rest) with "" by (destruct rest; reflexivity).
  destruct pw, (PyStr.is_digit d1), (PyStr.is_digit d2), (PyStr.is_digit d3);
    cbn [negb andb];
    try (split; [discriminate | intros [[H1 [H2 [H3 [H4 _]]]] _]; discriminate]).
  destruct rest as [|c rest]; cbn [String.get].
  - split; [intros H; inversion H; auto 10 | intros [_ ->]; reflexivity].
  - destruct (PyStr.is_word c); cbn [negb].
    + split; [discriminate | intros [[_ [_ [_ [_ H]]]] _]; discriminate].
    + split; [intros H; inversion H; auto 10 | intros [_ ->]; reflexivity].
Qed.

Lemma token_from_cons (pw : bool) (c : ascii) (s : string) (i : nat) :
  token_from pw (String c s) (S i) <-> token_from (PyStr.is_word c) s i.
Proof.
  unfold token_from, digit_at, word_at.
  cbn [String.get Nat.add]. destruct i; cbn [String.get]; reflexivity.
Qed.

Lemma search_from_some (s : string) (pw : bool) (g : string) :
  search_from pw s = Some g ->
  exists i,
    token_from pw s i
    /\ (forall j, (j < i)%nat -> ~ token_from pw s j)
    /\ g = String.substring i 3 s.
Proof.
  revert pw. induction s as [|c s IH]; intros pw; cbn [search_from].
  - cbn [match_at]. discriminate.
  - destruct (match_at pw (String c s)) as [g0|] eqn:E.
    + intros H. inversion H. subst g0. apply match_at_token in E.
      exists 0%nat. destruct E as [Ht ->].
      split; [assumption|]. split; [lia | reflexivity].
    + intros H. apply IH in H. destruct H as [i [Ht [Hmin ->]]].
      exists (S i). split; [now apply token_from_cons|].
      split; [|reflexivity].
      intros [|j] Hj Hc.
      * assert (Hm : match_at pw (String c s)
                     = Some (String.substring 0 3 (String c s)))
          by (apply match_at_token; auto).
        congruence.
      * apply token_from_cons in Hc. apply (Hmin j); [lia | assumption].
Qed.

Lemma search_from_none (s : string) (pw : bool) :
  search_from pw s = None -> forall i, ~ token_from pw s i.
Proof.
  revert pw. induction s as [|c s IH]; intros pw; cbn [search_from].
  - intros _ i. apply token_from_empty.
  - destruct (match_at pw (String c s)) as [g0|] eqn:E; [discriminate|].
    intros H [|i] Hc.
    + assert (Hm : match_at pw (String c s)
                   = Some (String.substring 0 3 (String c s)))
        by (apply match_at_token; auto).
      congruence.
    + apply token_from_cons in Hc. exact (IH _ H i Hc).
Qed.

Lemma first_token_unique (s : string) (i j : nat) :
  first_token s i -> first_token s j -> i = j.
Proof.
  intros [Hi Hmi] [Hj Hmj].
  destruct (Nat.lt_trichotomy i j) as [H|[H|H]]; [|assumption|].
  - exfalso. exact (Hmj i H Hi).
  - exfalso. exact (Hmi j H Hj).
Qed.

Lemma re_search_first_token (s g : string) :
  re_search_course_num s = Some g <->
  exists i, first_token s i /\ g = String.substring i 3 s.
Proof.
  unfold re_search_course_num. split.
  - intros H. apply search_from_some in H.
    destruct H as [i [Ht [Hmin ->]]]. exists i.
    split; [split; assumption | reflexivity].
  - intros [i [Hf ->]].
    destruct (search_from false s) as [g|] eqn:E.
    + apply search_from_some in E. destruct E as [j [Ht [Hmin ->]]].
      now rewrite (first_token_unique s i j Hf (conj Ht Hmin)).
    + exfalso. destruct Hf as [Hi _].
      exact (search_from_none s false E i Hi).
Qed.

Lemma is_grad_first_token (row : RawCourseRow) :
  is_grad row = true <->
  exists i,
    first_token (course_code row) i
    /\ (700 <= token_value (course_code row) i)%Z.
Proof.
  unfold is_grad, token_value. split.
  - destruct (re_search_course_num (course_code row)) as [g|] eqn:E;
      [|discriminate].
    intros H. apply re_search_first_token in E.
    destruct E as [i [Hf ->]]. exists i. split; [assumption | lia].
  - intros [i [Hf Hv]].
    rewrite (proj2 (re_search_first_token (course_code row) _)
               (ex_intro _ i (conj Hf eq_refl))).
    lia.
Qed.

Lemma is_grad_no_token (row : RawCourseRow) :
  (forall i, ~ token_at (course_code row) i) -> is_grad row = false.
Proof.
  intros H. unfold is_grad.
  destruct (re_search_course_num (course_code row)) as [g|] eqn:E;
    [|reflexivity].
  apply re_search_first_token in E. destruct E as [i [[Hi _] _]].
  exfalso. exact (H i Hi).
Qed.

Lemma level_grad (row : RawCourseRow) :
  level (classify row) = grad <-> is_grad row = true.
Proof.
  cbn [classify level]. destruct (is_grad row); split; congruence.
Qed.

Lemma In_grad_classes (classes : list Web.ClassRow)
  (ds : list (Web.ClassRow * Z)) (c : Web.ClassRow) :
  Web.leading_digits classes = Ok ds ->
  (In c (Web.grad_classes ds) <->
   In c classes /\ Workload.is_grad c = true)
  /\ (In c (Web.ug_classes ds) <->
      In c classes /\ Workload.is_ug c = true).
Proof.
  rewrite leading_digits_eq.
  destruct (forallb Workload.numbered classes); [|discriminate].
  intros H. inversion H. subst ds. clear H.
  unfold Web.grad_classes, Web.ug_classes.
  rewrite (filter_digits (fun d => (7 <=? d)%Z)).
  rewrite (filter_digits (fun d => (d <=? 6)%Z)).
  split; apply filter_In.
Qed.

Lemma leading_digits_numbered (classes : list Web.ClassRow)
  (ds : list (Web.ClassRow * Z)) (c : Web.ClassRow) :
  Web.leading_digits classes = Ok ds -> In c classes ->
  exists ch rest,
    Web.course_number c = String ch rest /\ PyStr.is_digit ch = true
    /\ Workload.digit_of c = PyStr.digit_val ch.
Proof.
  rewrite leading_digits_eq.
  destruct (forallb Workload.numbered classes) eqn:E; [|discriminate].
  intros _ Hc. rewrite forallb_forall in E. specialize (E c Hc).
  unfold Workload.numbered, Workload.digit_of, Web.leading_digit in *.
  destruct (Web.course_number c) as [|ch rest]; [discriminate|].
  destruct (PyStr.is_digit ch) eqn:Ed; [|discriminate].
  now exists ch, rest.
Qed.

End Level.

Section LevelThreshold.
Import Desktop Token.

(** C1: the desktop variant sets [level = grad] exactly when the course
    code has a first standalone three-digit token and its value is at
    least 700, and [ug] when it has no such token; the web-UI variant
    counts a row among the graduate classes exactly when the leading
    digit of its course number is at least 7 and among the undergraduate
    ones when it is at most 6.  The boundary values 699 and 700, 6 and 7,
    fall on the two sides. *)
Theorem level_threshold
  (row : RawCourseRow) (classes : list Web.ClassRow)
  (ds : list (Web.ClassRow * Z)) (c : Web.ClassRow) :
  (level (classify row) = grad <->
   exists i,
     first_token (course_code row) i
     /\ (700 <= token_value (course_code row) i)%Z)
  /\ ((forall i, ~ token_at (course_code row) i) ->
      level (classify row) = ug)
  /\ (Web.leading_digits classes = Ok ds -> In c classes ->
      exists ch rest,
        Web.course_number c = String ch rest
        /\ PyStr.is_digit ch = true
        /\ (In c (Web.grad_classes ds) <-> (7 <= PyStr.digit_val ch)%Z)
        /\ (In c (Web.ug_classes ds) <-> (PyStr.digit_val ch <= 6)%Z))
  /\ level (classify (Sample.course "FIN 699")) = ug
  /\ level (classify (Sample.course "FIN 700")) = grad
  /\ Web.leading_digits [Sample.numbered_class "699"]
     = Ok [(Sample.numbered_class "699", 6%Z)]
  /\ Web.grad_classes [(Sample.numbered_class "699", 6%Z)] = []
  /\ Web.leading_digits [Sample.numbered_class "700"]
     = Ok [(Sample.numbered_class "700", 7%Z)]
  /\ Web.grad_classes [(Sample.numbered_class "700", 7%Z)]
     = [Sample.numbered_class "700"].
Proof.
  split; [|split; [|split; [|repeat split]]].
  - rewrite level_grad. apply is_grad_first_token.
  - intros H. cbn [classify level]. now rewrite (is_grad_no_token row H).
  - intros Hd Hc.
    destruct (leading_digits_numbered classes ds c Hd Hc)
      as [ch [rest [Hn [Hdig Hv]]]].
    destruct (In_grad_classes classes ds c Hd) as [Hg Hu].
    exists ch, rest. split; [assumption|]. split; [assumption|].
    rewrite Hg, Hu. unfold Workload.is_grad, Workload.is_ug.
    rewrite Hv, Z.leb_le, Z.leb_le. tauto.
Qed.

Lemma level_threshold_witness :
  level (classify (Sample.course "MATH 115A")) = ug
  /\ exists ch rest,
       Web.course_number (Sample.numbered_class "700") = String ch rest
       /\ PyStr.is_digit ch = true
       /\ (In (Sample.numbered_class "700")
             (Web.grad_classes [(Sample.numbered_class "700", 7%Z)])
           <-> (7 <= PyStr.digit_val ch)%Z)
       /\ (In (Sample.numbered_class "700")
             (Web.ug_classes [(Sample.numbered_class "700", 7%Z)])
           <-> (PyStr.digit_val ch <= 6)%Z).
Proof.
  pose proof (level_threshold (Sample.course "MATH 115A")
                [Sample.numbered_class "700"]
                [(Sample.numbered_class "700", 7%Z)]
                (Sample.numbered_class "700"))
    as [_ [Hnone [Hweb _]]].
  split.
  - apply Hnone. intros i [H1 [H2 [H3 [H4 H5]]]].
    do 9 (destruct i as [|i]; [vm_compute in H1, H2, H3, H4, H5;
                               discriminate|]).
    vm_compute in H1. destruct i; discriminate.
  - apply Hweb; [reflexivity | left; reflexivity].
Defined.

(** C8 fails in the web-UI variant: a course number that does not start
    with a digit makes the conversion raise, and the run returns nothing
    instead of counting the row as undergraduate.  The desktop variant
    and a missing course number of the web-UI variant do default to
    undergraduate. *)
Theorem malformed_course_number_aborts_web (driver : Web.Browser) :
  Web.extract_row
    ["Intro to Finance"; "1234"; "01"; "LEC"; ""; ""; ""; "Lee Amy"]
  = Some (Web.mkClassRow "1234" "01" "LEC" "to" "Lee Amy"
            "Intro to Finance" 0)
  /\ Web.leading_digit "to" = Raise ValueError
  /\ Web.run driver
       [["Intro to Finance"; "1234"; "01"; "LEC"; ""; ""; ""; "Lee Amy"]]
     = None
  /\ level (classify (Sample.course "FIN to")) = ug
  /\ Web.extract_row ["FIN"; "1234"; "01"; "LEC"; ""; ""; ""; "Lee Amy"]
     = Some (Web.mkClassRow "1234" "01" "LEC" "000" "Lee Amy" "FIN" 0).
Proof. repeat split. Qed.

End LevelThreshold.

(** ** Instructor names *)

Section Names.

Lemma contains_comma_cons (c : ascii) (s : string) :
  PyStr.contains "," (String c s)
  = Ascii.eqb c "," || PyStr.contains "," s.
Proof.
  cbn [PyStr.contains String.prefix].
  destruct (ascii_dec "," c) as [<-|Hn].
  - destruct s; reflexivity.
  - destruct (Ascii.eqb_spec c ","); [congruence | reflexivity].
Qed.

Lemma split_once_none (s : string) :
  PyStr.contains "," s = false -> PyStr.split_once "," s = None.
Proof.
  induction s as [|c s IH]; [reflexivity|].
  rewrite contains_comma_cons. intros H. apply orb_false_elim in H.
  destruct H as [Hc Hs]. cbn [PyStr.split_once]. rewrite Hc.
  now rewrite (IH Hs).
Qed.

Lemma split_once_first (pre post : string) :
  PyStr.contains "," pre = false ->
  PyStr.split_once "," (pre ++ "," ++ post) = Some (pre, post).
Proof.
  induction pre as [|c pre IH]; [reflexivity|].
  rewrite contains_comma_cons. intros H. apply orb_false_elim in H.
  destruct H as [Hc Hs].
  change (String c pre ++ "," ++ post)
    with (String c (pre ++ "," ++ post)).
  cbn [PyStr.split_once]. rewrite Hc. now rewrite (IH Hs).
Qed.

(** C3, as amended: [split_name] of the desktop variant returns two empty
    strings on a missing or empty name, splits at the first comma and
    trims both sides, and without a comma takes the whole trimmed name as
    the last name; the web-UI variant removes the commas and splits on
    white space, the first token being the last name and the others,
    joined, the first name, and a name of fewer than two tokens is the
    last name as it stands. *)
Theorem split_name_cases (pre post s : string) :
  Desktop.split_name None = ("", "")
  /\ Desktop.split_name (Some "") = ("", "")
  /\ (PyStr.contains "," pre = false ->
      Desktop.split_name (Some (pre ++ "," ++ post))
      = (PyStr.strip pre, PyStr.strip post))
  /\ (s <> "" -> PyStr.contains "," s = false ->
      Desktop.split_name (Some s) = (PyStr.strip s, ""))
  /\ match PyStr.split (PyStr.replace "," "" s) with
     | p0 :: p1 :: others =>
         Web.split_name s = (p0, PyStr.join " " (p1 :: others))
     | _ => Web.split_name s = (s, "")
     end
  /\ Desktop.split_name (Some "Smith, Jane") = ("Smith", "Jane")
  /\ Desktop.split_name (Some "Jane Smith") = ("Jane Smith", "")
  /\ Web.split_name "Jane Smith" = ("Jane", "Smith")
  /\ Web.split_name "Smith,Jane" = ("Smith,Jane", "").
Proof.
  split; [reflexivity|]. split; [reflexivity|]. split; [|split; [|split]].
  - intros H. unfold Desktop.split_name.
    rewrite (split_once_first pre post H).
    destruct (pre ++ "," ++ post) eqn:E; [|reflexivity].
    destruct pre; discriminate.
  - intros Hs H. unfold Desktop.split_name.
    rewrite (split_once_none s H). destruct s; [congruence | reflexivity].
  - unfold Web.split_name.
    destruct (PyStr.split (PyStr.replace "," "" s)) as [|p0 [|p1 others]];
      reflexivity.
  - repeat split.
Qed.

Lemma split_name_cases_witness :
  Desktop.split_name (Some ("Van Der Berg " ++ "," ++ " Jane"))
  = (PyStr.strip "Van Der Berg ", PyStr.strip " Jane")
  /\ Desktop.split_name (Some "Madonna") = (PyStr.strip "Madonna", "").
Proof.
  pose proof (split_name_cases "Van Der Berg " " Jane" "Madonna")
    as [_ [_ [Hcomma [Hplain _]]]].
  split.
  - apply Hcomma. reflexivity.
  - apply Hplain; [discriminate | reflexivity].
Defined.

(** C3, as stated, fails: without a comma the desktop variant does not
    split the name. *)
Lemma split_name_counterexample :
  Desktop.split_name (Some "Jane Smith") <> ("Jane", "Smith").
Proof. vm_compute. discriminate. Qed.



End Names.

(** ** Rows without an instructor *)

Section Placeholders.
Import Web Workload.









Lemma parse_row_instructor (subject : string) (tr : Desktop.TableRow)
  (r : Desktop.RawCourseRow) :
  Desktop.parse_row subject tr = Some r ->
  Desktop.instructor r <> "" /\ PyStr.strip (Desktop.instructor r) <> "".
Proof.
  unfold Desktop.parse_row. cbv zeta.
  set (ins := Desktop.parse_instructor _).
  destruct (List.length (Desktop.tds tr) <? 3)%nat; [discriminate|].
  destruct (_ && _); [discriminate|].
  destruct (Desktop.is_empty _ && Desktop.is_empty ins); [discriminate|].
  destruct (Desktop.is_empty ins) eqn:E1; [discriminate|].
  destruct (Desktop.is_empty (PyStr.strip ins)) eqn:E2; [discriminate|].
  cbn [orb]. intros H. injection H as <-. cbn [Desktop.instructor].
  split; intros Hc; [rewrite Hc in E1 | rewrite Hc in E2]; discriminate.
Qed.

End Placeholders.

Section PlaceholdersDropped.
Import Web Workload.





End PlaceholdersDropped.

(** ** Enrollment that cannot be read *)

Section EnrollmentFailure.
Import Failure.

Lemma scan_divs_none (divs : list string) :
  (forall d, In d divs -> PyStr.isdigit (PyStr.strip d) = false) ->
  Web.scan_divs divs = 0%Z.
Proof.
  induction divs as [|d divs IH]; intros H; [reflexivity|].
  cbn [Web.scan_divs]. rewrite (H d (or_introl eq_refl)). cbn [andb].
  apply IH. intros x Hx. apply H. now right.
Qed.

Lemma try_selectors_fail (page : Web.DetailPage) (sels : list string) :
  (forall sel, In sel sels -> selector_fails page sel) ->
  fallback_fails page ->
  Web.try_selectors page sels = Ok 0%Z
  \/ exists e, Web.try_selectors page sels = Raise e.
Proof.
  intros Hs Hf. induction sels as [|sel sels IH]; cbn [Web.try_selectors].
  - destruct Hf as [[e He]|[divs [Hd Hn]]]; rewrite ?He, ?Hd; cbn [Web.bind].
    + right. now exists e.
    + left. now rewrite (scan_divs_none divs Hn).
  - assert (IH' := IH (fun s Hin => Hs s (or_intror Hin))).
    destruct (Hs sel (or_introl eq_refl)) as [H|[e [t [H1 [H2 H3]]]]].
    + now rewrite H.
    + now rewrite H1, H2, H3.
Qed.

Lemma extract_raises (driver : Web.Browser) (class_nbr : string) (e : exn) :
  Web.extract_body driver class_nbr = Raise e ->
  Web.extract_enrollment_from_detail_page driver class_nbr = 0%Z.
Proof.
  intros H. unfold Web.extract_enrollment_from_detail_page. now rewrite H.
Qed.

Lemma extract_fails (driver : Web.Browser) (class_nbr : string) :
  web_fails driver class_nbr ->
  Web.extract_enrollment_from_detail_page driver class_nbr = 0%Z.
Proof.
  unfold Web.extract_enrollment_from_detail_page, Web.extract_body.
  intros [[e He]|[page [Hp [[e He]|[Hs Hf]]]]].
  - now rewrite He.
  - rewrite Hp. cbn [Web.bind]. now rewrite He.
  - rewrite Hp. cbn [Web.bind].
    destruct (Web.wait_content page) as [[]|e]; cbn [Web.bind];
      [|reflexivity].
    destruct (try_selectors_fail page _ Hs Hf) as [H|[e H]]; now rewrite H.
Qed.

Lemma first_located_none (page : Desktop.DetailPage)
  (sels : list (Desktop.By * string)) :
  (forall sel, In sel sels ->
               exists e, Desktop.wait_located page sel = Raise e) ->
  Desktop.first_located page sels = None.
Proof.
  induction sels as [|sel sels IH]; intros H; [reflexivity|].
  cbn [Desktop.first_located].
  destruct (H sel (or_introl eq_refl)) as [e ->].
  apply IH. intros s Hs. apply H. now right.
Qed.

Lemma first_number_none (s : string) :
  (forall i, Token.digit_at s i = false) -> Desktop.first_number s = None.
Proof.
  induction s as [|c s IH]; intros H; [reflexivity|].
  cbn [Desktop.first_number].
  pose proof (H 0%nat) as H0. unfold Token.digit_at in H0.
  cbn [String.get] in H0. rewrite H0.
  apply IH. intros i. exact (H (S i)).
Qed.

Lemma get_course_enrollment_fails (driver : Desktop.Browser)
  (link : string) :
  link <> "" -> desktop_fails driver link ->
  fst (Desktop.get_course_enrollment driver (Some link)) = 0%Z.
Proof.
  intros Hl Hf. unfold Desktop.get_course_enrollment.
  destruct link as [|c link]; [congruence|].
  destruct Hf as [[e He]|[page [Hp Hf]]].
  - now rewrite He.
  - rewrite Hp. cbn [fst]. unfold Desktop.read_enrolled.
    destruct Hf as [Hn|[el [Hel [[e He]|[t [Ht Hd]]]]]].
    + now rewrite (first_located_none page _ Hn).
    + now rewrite Hel, He.
    + now rewrite Hel, Ht, (first_number_none _ Hd).
Qed.

Lemma enroll_row_same (driver : Desktop.Browser) (r : Desktop.RawCourseRow) :
  same_course r (Desktop.enroll_row driver r).
Proof.
  unfold Desktop.enroll_row, same_course.
  destruct (Desktop.get_course_enrollment driver _) as [e code].
  destruct (Desktop.course_link r) as [[|c l]|] eqn:E;
    [tauto | | tauto].
  destruct (Desktop.is_empty code); cbn; tauto.
Qed.

Lemma enroll_row_fails (driver : Desktop.Browser)
  (r : Desktop.RawCourseRow) (link : string) :
  Desktop.course_link r = Some link -> link <> "" ->
  desktop_fails driver link ->
  Desktop.enrolled (Desktop.enroll_row driver r) = 0%Z.
Proof.
  intros Hr Hl Hf. unfold Desktop.enroll_row. rewrite Hr.
  pose proof (get_course_enrollment_fails driver link Hl Hf) as H.
  destruct link as [|c l]; [congruence|].
  destruct (Desktop.get_course_enrollment driver _) as [e code].
  cbn [fst] in H. subst e.
  destruct (Desktop.is_empty code); reflexivity.
Qed.

(** C9: an extraction that fails (the page does not load, the wait times
    out, an element is missing or nothing on the page is a number) gives
    the enrollment 0, in both variants; and the enrollment loops go
    through all the rows: the result has a row for every input row, in
    order, with its other fields unchanged, and 0 enrolled where the
    extraction failed. *)
Theorem extraction_failure_defaults_to_zero
  (driver : Web.Browser) (data : list Web.ClassRow)
  (browser : Desktop.Browser) (rows : list Desktop.RawCourseRow)
  (n : nat) (r : Web.ClassRow) (e : exn)
  (row : Desktop.RawCourseRow) (link : string) :
  (List.length (Web.fill_enrollment driver data) = List.length data
   /\ (nth_error data n = Some r ->
       exists r',
         nth_error (Web.fill_enrollment driver data) n = Some r'
         /\ same_class r r'
         /\ (Web.extract_body driver (Web.class_nbr r) = Raise e ->
             Web.enrollment r' = 0%Z)
         /\ (web_fails driver (Web.class_nbr r) ->
             Web.enrollment r' = 0%Z)))
  /\ (List.length (Desktop.enroll_rows browser rows) = List.length rows
      /\ (nth_error rows n = Some row ->
          exists row',
            nth_error (Desktop.enroll_rows browser rows) n = Some row'
            /\ same_course row row'
            /\ (Desktop.course_link row = Some link -> link <> "" ->
                desktop_fails browser link ->
                Desktop.enrolled row' = 0%Z))).
Proof.
  split; split.
  - apply length_map.
  - intros H. eexists. split.
    + unfold Web.fill_enrollment. rewrite nth_error_map, H. reflexivity.
    + split; [unfold same_class; cbn; tauto|]. cbn [Web.enrollment].
      split; [apply extract_raises | apply extract_fails].
  - apply length_map.
  - intros H. eexists. split.
    + unfold Desktop.enroll_rows. rewrite nth_error_map, H. reflexivity.
    + split; [apply enroll_row_same | apply enroll_row_fails].
Qed.

Lemma extraction_failure_defaults_to_zero_witness :
  (exists r',
      nth_error (Web.fill_enrollment Sample.flaky Sample.two_class_rows) 0
      = Some r'
      /\ Web.enrollment r' = 0%Z)
  /\ map Web.enrollment
       (Web.fill_enrollment Sample.flaky Sample.two_class_rows)
     = [0%Z; 25%Z]
  /\ exists row',
       nth_error (Desktop.enroll_rows Sample.offline [Sample.linked_row]) 0
       = Some row'
       /\ Desktop.enrolled row' = 0%Z.
Proof.
  pose proof (extraction_failure_defaults_to_zero Sample.flaky
                Sample.two_class_rows Sample.offline [Sample.linked_row]
                0%nat
                (Web.mkClassRow "1234" "01" "IND" "699" "Lee Amy"
                   "FIN 699 Study" 4)
                TimeoutException Sample.linked_row
                "https://webapps.sfsu.edu/public/classservices/1001")
    as [[_ Hw] [_ Hd]].
  split; [|split].
  - destruct (Hw eq_refl) as [r' [Hn [_ [Hraise _]]]].
    exists r'. split; [exact Hn | apply Hraise; reflexivity].
  - reflexivity.
  - destruct (Hd eq_refl) as [row' [Hn [_ Hz]]].
    exists row'. split; [exact Hn|].
    apply Hz; [reflexivity | discriminate |].
    left. exists WebDriverException. reflexivity.
Defined.

End EnrollmentFailure.

(** ** Tokens *)

Section Tokens.
Import Text.

Lemma spaceless_of_list (l : list ascii) :
  spaceless (string_of_list_ascii l)
  = forallb (fun c => negb (PyStr.is_space c)) l.
Proof.
  induction l as [|c l IH]; [reflexivity|].
  cbn [string_of_list_ascii spaceless forallb]. now rewrite IH.
Qed.

Lemma forallb_rev {A : Type} (p : A -> bool) (l : list A) :
  forallb p (rev l) = forallb p l.
Proof.
  induction l as [|x l IH]; [reflexivity|].
  cbn [rev forallb]. rewrite forallb_app, IH. cbn [forallb].
  destruct (p x), (forallb p l); reflexivity.
Qed.

Lemma rev_string_token (c : ascii) (cur : list ascii) :
  forallb (fun c => negb (PyStr.is_space c)) (c :: cur) = true ->
  token (PyStr.rev_string (c :: cur)).
Proof.
  intros H. unfold token, PyStr.rev_string. split.
  - cbn [rev]. destruct (rev cur); discriminate.
  - now rewrite spaceless_of_list, forallb_rev.
Qed.

Lemma flush_tokens (cur : list ascii) (acc : list string) :
  forallb (fun c => negb (PyStr.is_space c)) cur = true ->
  Forall token acc -> Forall token (PyStr.flush cur acc).
Proof.
  intros Hc Ha. destruct cur as [|c cur]; [exact Ha|].
  cbn [PyStr.flush]. constructor; [now apply rev_string_token | exact Ha].
Qed.

Lemma split_aux_tokens (s : string) (cur : list ascii) :
  forallb (fun c => negb (PyStr.is_space c)) cur = true ->
  Forall token (PyStr.split_aux cur s).
Proof.
  revert cur. induction s as [|c s IH]; intros cur Hc; cbn [PyStr.split_aux].
  - now apply flush_tokens.
  - destruct (PyStr.is_space c) eqn:E.
    + apply flush_tokens; [assumption | now apply IH].
    + apply IH. cbn [forallb]. now rewrite E.
Qed.

(** The tokens of [str.split()] are not empty and hold no white space. *)
Lemma split_tokens (s : string) : Forall token (PyStr.split s).
Proof. now apply split_aux_tokens. Qed.

Lemma rstrip_spaceless (s : string) :
  spaceless s = true -> PyStr.rstrip s = s.
Proof.
  induction s as [|c s IH]; [reflexivity|].
  cbn [spaceless PyStr.rstrip]. intros H. apply andb_prop in H.
  destruct H as [Hc Hs]. rewrite (IH Hs).
  destruct s; [|reflexivity].
  apply negb_true_iff in Hc. now rewrite Hc.
Qed.

Lemma lstrip_spaceless (s : string) :
  spaceless s = true -> PyStr.lstrip s = s.
Proof.
  destruct s as [|c s]; [reflexivity|].
  cbn [spaceless PyStr.lstrip]. intros H. apply andb_prop in H.
  destruct H as [Hc _]. apply negb_true_iff in Hc. now rewrite Hc.
Qed.

Lemma strip_spaceless (s : string) :
  spaceless s = true -> PyStr.strip s = s.
Proof.
  intros H. unfold PyStr.strip.
  now rewrite (lstrip_spaceless s H), (rstrip_spaceless s H).
Qed.

End Tokens.

(** ** The rows that [parse_rows] keeps *)

Section ParsedRows.
Import Desktop Text.

Lemma nth_repeat_default {A : Type} (d : A) (k i : nat) :
  nth i (repeat d k) d = d.
Proof.
  revert i. induction k as [|k IH]; intros [|i]; cbn [repeat nth];
    try reflexivity.
  apply IH.
Qed.

Lemma nth_padded {A : Type} (l : list A) (d : A) (k i : nat) :
  nth i (l ++ repeat d k) d = nth i l d.
Proof.
  revert i. induction l as [|x l IH]; intros i.
  - cbn [app]. rewrite nth_repeat_default. now destruct i.
  - destruct i; cbn [app nth]; [reflexivity | apply IH].
Qed.

Lemma In_parse_rows (subject : string) (trs : list TableRow)
  (r : RawCourseRow) :
  In r (parse_rows subject trs) <->
  exists tr, In tr trs /\ parse_row subject tr = Some r.
Proof.
  unfold parse_rows. rewrite in_flat_map. split; intros [tr [Hin H]];
    exists tr; (split; [assumption|]).
  - destruct (parse_row subject tr) as [r'|]; [|destruct H].
    destruct H as [->|[]]. reflexivity.
  - rewrite H. now left.
Qed.

Lemma parse_row_fields (subject : string) (tr : TableRow) (r : RawCourseRow) :
  parse_row subject tr = Some r ->
  (3 <= List.length (tds tr))%nat
  /\ course_type r = nth 0 (tds tr) ""
  /\ title r = nth 1 (tds tr) ""
  /\ units r = nth 2 (tds tr) ""
  /\ class_number r = nth 3 (tds tr) ""
  /\ course_code r = subject ++ " " ++ class_number r
  /\ instructor r = parse_instructor (nth 5 (tds tr) "")
  /\ enrolled r = 0%Z
  /\ note r = note_of (course_type r)
  /\ course_link r = link_of (href tr).
Proof.
  unfold parse_row. cbv zeta. rewrite !nth_padded.
  destruct (List.length (tds tr) <? 3)%nat eqn:E; [discriminate|].
  apply Nat.ltb_ge in E.
  destruct (_ && _); [discriminate|].
  destruct (is_empty _ && is_empty _); [discriminate|].
  destruct (is_empty _ || is_empty _); [discriminate|].
  intros H. injection H as <-. cbn. tauto.
Qed.

Lemma parse_instructor_unnamed (col : string) :
  PyStr.contains "Instructors:" col = false -> parse_instructor col = "".
Proof. intros H. unfold parse_instructor. now rewrite H. Qed.

(** X1: [parse_rows] keeps a table row only if it has at least six cells and
    the sixth names the instructors; the row it stores has no enrollment
    yet, the course code made of the subject and the class number, and a
    link that is absent, empty or absolute. *)
Theorem parse_rows_kept_rows
  (subject : string) (trs : list TableRow) (r : RawCourseRow) :
  In r (parse_rows subject trs) ->
  exists tr,
    In tr trs
    /\ (6 <= List.length (tds tr))%nat
    /\ PyStr.contains "Instructors:" (nth 5 (tds tr) "") = true
    /\ enrolled r = 0%Z
    /\ course_code r = subject ++ " " ++ nth 3 (tds tr) ""
    /\ (forall l, course_link r = Some l -> l <> "" ->
                  String.prefix "http" l = true).
Proof.
  intros H. apply In_parse_rows in H. destruct H as [tr [Hin H]].
  exists tr. split; [assumption|].
  pose proof (parse_row_instructor subject tr r H) as [Hi _].
  destruct (parse_row_fields subject tr r H)
    as [_ [_ [_ [_ [Hn [Hc [Hins [He [_ Hl]]]]]]]]].
  assert (Hcol : PyStr.contains "Instructors:" (nth 5 (tds tr) "") = true).
  { destruct (PyStr.contains "Instructors:" (nth 5 (tds tr) "")) eqn:E;
      [reflexivity|].
    rewrite Hins, (parse_instructor_unnamed _ E) in Hi. congruence. }
  split; [|split; [assumption|split; [assumption|split]]].
  - destruct (le_lt_dec 6 (List.length (tds tr))) as [Hle|Hlt];
      [assumption|].
    rewrite (nth_overflow (tds tr) "") in Hcol by lia. discriminate.
  - now rewrite Hc, Hn.
  - intros l Hsome Hne. rewrite Hl in Hsome. unfold link_of in Hsome.
    destruct (href tr) as [[|c h]|]; [congruence| |discriminate].
    unfold starts_with in Hsome.
    destruct (String.prefix "http" (String c h)) eqn:E;
      injection Hsome as <-; [assumption | reflexivity].
Qed.

Lemma parse_rows_kept_rows_witness :
  exists tr,
    In tr [mkTableRow ["Lecture"; "Thesis"; "3"; "1002"; "";
                       "Instructors: Bo Kim"] (Some "/detail/1002")]
    /\ (6 <= List.length (tds tr))%nat
    /\ PyStr.contains "Instructors:" (nth 5 (tds tr) "") = true
    /\ enrolled (mkRaw "Lecture" "Thesis" "3" "FIN 1002" "Kim, Bo" 0 ""
                   (Some "https://webapps.sfsu.edu/detail/1002") "1002")
       = 0%Z
    /\ course_code (mkRaw "Lecture" "Thesis" "3" "FIN 1002" "Kim, Bo" 0 ""
                      (Some "https://webapps.sfsu.edu/detail/1002") "1002")
       = "FIN" ++ " " ++ nth 3 (tds tr) ""
    /\ (forall l,
           course_link (mkRaw "Lecture" "Thesis" "3" "FIN 1002" "Kim, Bo" 0
                          "" (Some "https://webapps.sfsu.edu/detail/1002")
                          "1002") = Some l ->
           l <> "" -> String.prefix "http" l = true).
Proof.
  apply (parse_rows_kept_rows "FIN"). vm_compute. left. reflexivity.
Defined.

(** X2: a name that [parse_rows] turns into "Last, First" is split back by
    [split_name] into the second token as last name and the first token as
    first name, provided the second token holds no comma. *)
Theorem first_last_round_trip
  (instructor_col : string) (p0 p1 : string) (others : list string) :
  PyStr.contains "Instructors:" instructor_col = true ->
  PyStr.split
    (PyStr.strip (PyStr.replace "Instructors:" "" instructor_col))
  = p0 :: p1 :: others ->
  PyStr.contains "," p1 = false ->
  split_name (Some (parse_instructor instructor_col)) = (p1, p0).
Proof.
  intros Hc Ht Hcomma.
  pose proof (split_tokens
                (PyStr.strip (PyStr.replace "Instructors:" "" instructor_col)))
    as Htok.
  rewrite Ht in Htok. inversion Htok as [|? ? [H0 S0] Htok']. subst.
  inversion Htok' as [|? ? [H1 S1] _]. subst.
  unfold parse_instructor. rewrite Hc, Ht.
  unfold split_name.
  change (p1 ++ ", " ++ p0) with (p1 ++ "," ++ (" " ++ p0)).
  rewrite (split_once_first p1 (" " ++ p0) Hcomma).
  destruct (p1 ++ "," ++ " " ++ p0) eqn:E;
    [destruct p1; discriminate|].
  rewrite (strip_spaceless p1 S1). f_equal.
  unfold PyStr.strip. cbn [append PyStr.lstrip].
  change (PyStr.is_space " ") with true. cbv iota.
  now rewrite (lstrip_spaceless p0 S0), (rstrip_spaceless p0 S0).
Qed.

Lemma first_last_round_trip_witness :
  split_name (Some (parse_instructor "Instructors: Mary Ann Smith"))
  = ("Ann", "Mary").
Proof.
  apply (first_last_round_trip "Instructors: Mary Ann Smith" "Mary" "Ann"
           ["Smith"]); reflexivity.
Defined.

End ParsedRows.

(** ** The course code of a detail page *)

Section DetailCode.
Import Desktop Code.

Lemma append_assoc (a b c : string) : (a ++ b) ++ c = a ++ (b ++ c).
Proof.
  induction a as [|x a IH]; [reflexivity|]. cbn [append]. now rewrite IH.
Qed.

Lemma append_empty_r (a : string) : a ++ "" = a.
Proof.
  induction a as [|x a IH]; [reflexivity|]. cbn [append]. now rewrite IH.
Qed.

Lemma length_append (a b : string) :
  String.length (a ++ b) = (String.length a + String.length b)%nat.
Proof.
  induction a as [|x a IH]; [reflexivity|].
  cbn [append String.length]. now rewrite IH.
Qed.

Lemma span_spec (p : ascii -> bool) (s a b : string) :
  span p s = (a, b) -> s = a ++ b /\ all_of p a = true.
Proof.
  revert a b. induction s as [|c s IH]; intros a b; cbn [span].
  - intros H. injection H as <- <-. now split.
  - destruct (p c) eqn:E.
    + destruct (span p s) as [a' b'] eqn:Es. intros H. injection H as <- <-.
      destruct (IH a' b' eq_refl) as [-> Ha]. cbn [append all_of].
      now rewrite E, Ha.
    + intros H. injection H as <- <-. now split.
Qed.

Lemma take_upto_spec (n : nat) (p : ascii -> bool) (s a b : string) :
  take_upto n p s = (a, b) ->
  s = a ++ b /\ all_of p a = true /\ (String.length a <= n)%nat.
Proof.
  revert s a b. induction n as [|n IH]; intros s a b; cbn [take_upto].
  - intros H. injection H as <- <-. repeat split. cbn. lia.
  - destruct s as [|c s].
    + intros H. injection H as <- <-. repeat split. cbn. lia.
    + destruct (p c) eqn:E.
      * destruct (take_upto n p s) as [a' b'] eqn:Es. intros H.
        injection H as <- <-.
        destruct (IH s a' b' Es) as [-> [Ha Hl]]. cbn [append all_of].
        rewrite E, Ha. repeat split. cbn [String.length]. lia.
      * intros H. injection H as <- <-. repeat split. cbn. lia.
Qed.

Lemma match_code_at_shaped (s g : string) :
  match_code_at s = Some g ->
  exists dept gap number suffix rest,
    g = dept ++ gap ++ number ++ suffix
    /\ s = g ++ rest
    /\ shaped dept gap number suffix.
Proof.
  unfold match_code_at.
  destruct (take_upto 4 PyStr.is_upper s) as [u r1] eqn:Eu.
  destruct (take_upto_spec _ _ _ _ _ Eu) as [-> [Hu Hl]].
  destruct (String.length u <? 2)%nat eqn:E2; [discriminate|].
  apply Nat.ltb_ge in E2.
  destruct (span PyStr.is_space r1) as [w r2] eqn:Ew.
  destruct (span_spec _ _ _ _ Ew) as [-> Hw].
  destruct (is_empty w) eqn:Ee; [discriminate|].
  destruct r2 as [|d1 [|d2 [|d3 r3]]]; try discriminate.
  destruct (PyStr.is_digit d1) eqn:D1; [|discriminate].
  destruct (PyStr.is_digit d2) eqn:D2; [|discriminate].
  destruct (PyStr.is_digit d3) eqn:D3; [|discriminate].
  cbn [andb]. intros H. injection H as <-.
  exists u, w, (String d1 (String d2 (String d3 ""))).
  assert (Hshape : forall sfx,
             all_of PyStr.is_upper sfx = true ->
             (String.length sfx <= 1)%nat ->
             shaped u w (String d1 (String d2 (String d3 ""))) sfx).
  { intros sfx H1 H2. unfold shaped. repeat split; try assumption; try lia.
    - intros ->. discriminate.
    - cbn [all_of]. now rewrite D1, D2, D3. }
  destruct r3 as [|c r3].
  - exists "", "". split; [reflexivity|]. split.
    + now rewrite !append_empty_r.
    + apply Hshape; [reflexivity | cbn; lia].
  - destruct (PyStr.is_upper c) eqn:Ec.
    + exists (String c ""), r3. split; [reflexivity|]. split.
      * now rewrite !append_assoc.
      * apply Hshape; [cbn [all_of]; now rewrite Ec | cbn; lia].
    + exists "", (String c r3). split; [reflexivity|]. split.
      * now rewrite !append_assoc.
      * apply Hshape; [reflexivity | cbn; lia].
Qed.

Lemma search_code_some (s g : string) :
  search_code s = Some g ->
  exists p t, s = p ++ t /\ match_code_at t = Some g.
Proof.
  induction s as [|c s IH]; cbn [search_code].
  - destruct (match_code_at "") eqn:E; [|discriminate].
    intros H. injection H as ->. now exists "", "".
  - destruct (match_code_at (String c s)) eqn:E.
    + intros H. injection H as ->. now exists "", (String c s).
    + intros H. destruct (IH H) as [p [t [-> Ht]]].
      now exists (String c p), t.
Qed.

Lemma search_code_none (p t : string) :
  search_code (p ++ t) = None -> match_code_at t = None.
Proof.
  induction p as [|c p IH]; cbn [append].
  - destruct t; cbn [search_code]; destruct (match_code_at _);
      [discriminate | reflexivity | discriminate | reflexivity].
  - cbn [search_code]. destruct (match_code_at (String c (p ++ t)));
      [discriminate | exact IH].
Qed.

Lemma drop_suffix (n : nat) (s : string) : exists p, s = p ++ drop n s.
Proof.
  revert s. induction n as [|n IH]; intros s; cbn [drop].
  - now exists "".
  - destruct s as [|c s]; [now exists ""|].
    destruct (IH s) as [p Hp]. exists (String c p). cbn [append]. now f_equal.
Qed.

Lemma match_labelled_suffix (s g : string) :
  match_labelled_code_at s = Some g ->
  exists p t, s = p ++ t /\ match_code_at t = Some g.
Proof.
  unfold match_labelled_code_at.
  destruct (String.prefix "Course:" s); [|discriminate].
  intros H. destruct (drop_suffix 7 s) as [p Hp].
  destruct (span PyStr.is_space (drop 7 s)) as [a b] eqn:E.
  destruct (span_spec _ _ _ _ E) as [Hd _]. cbn [snd] in H.
  exists (p ++ a), b. split; [|assumption].
  now rewrite append_assoc, <- Hd.
Qed.

Lemma search_labelled_code_some (s g : string) :
  search_labelled_code s = Some g ->
  exists p t, s = p ++ t /\ match_code_at t = Some g.
Proof.
  induction s as [|c s IH]; cbn [search_labelled_code].
  - destruct (match_labelled_code_at "") eqn:E; [|discriminate].
    intros H. injection H as ->. now apply match_labelled_suffix.
  - destruct (match_labelled_code_at (String c s)) eqn:E.
    + intros H. injection H as ->. now apply match_labelled_suffix.
    + intros H. destruct (IH H) as [p [t [-> Ht]]].
      now exists (String c p), t.
Qed.

(** X3: the second pattern of [get_course_enrollment], the one that expects
    the label [Course:], finds nothing that the first does not: on a page
    source where the first search fails, the second one fails too. *)
Theorem labelled_pattern_adds_nothing (src : string) :
  search_code src = None -> search_labelled_code src = None.
Proof.
  intros Hn. destruct (search_labelled_code src) as [g|] eqn:E;
    [|reflexivity].
  destruct (search_labelled_code_some src g E) as [p [t [-> Ht]]].
  rewrite (search_code_none p t Hn) in Ht. discriminate.
Qed.

Lemma labelled_pattern_adds_nothing_witness :
  search_code "<h1>Course: fin 350</h1>" = None
  /\ search_labelled_code "<h1>Course: fin 350</h1>" = None.
Proof.
  split; [reflexivity|].
  apply (labelled_pattern_adds_nothing "<h1>Course: fin 350</h1>").
  reflexivity.
Defined.

End DetailCode.

(** ** The level of a course code read from a detail page *)

Section DetailLevel.
Import Desktop Code.

Lemma upper_not_digit (c : ascii) :
  PyStr.is_upper c = true ->
  PyStr.is_digit c = false /\ PyStr.is_word c = true.
Proof.
  unfold PyStr.is_word, PyStr.is_lower, PyStr.is_upper, PyStr.is_digit.
  intros H. apply andb_true_iff in H as [H1 H2].
  pose proof H1 as H1'. pose proof H2 as H2'.
  apply Nat.leb_le in H1', H2'. split.
  - apply andb_false_iff. right. apply Nat.leb_gt. lia.
  - rewrite H1, H2. cbn. now rewrite ?orb_true_r.
Qed.

Lemma space_not_word (c : ascii) :
  PyStr.is_space c = true ->
  PyStr.is_digit c = false /\ PyStr.is_word c = false.
Proof.
  unfold PyStr.is_word, PyStr.is_lower, PyStr.is_upper, PyStr.is_digit,
    PyStr.is_space.
  intros H.
  assert (Hc : (PyStr.code c <= 32)%nat).
  { apply orb_true_iff in H as [H|H].
    - apply orb_true_iff in H as [H|H];
        apply andb_true_iff in H as [_ H]; apply Nat.leb_le in H; lia.
    - apply Nat.eqb_eq in H. lia. }
  assert (H48 : (48 <=? PyStr.code c)%nat = false) by (apply Nat.leb_gt; lia).
  assert (H65 : (65 <=? PyStr.code c)%nat = false) by (apply Nat.leb_gt; lia).
  assert (H97 : (97 <=? PyStr.code c)%nat = false) by (apply Nat.leb_gt; lia).
  assert (H95 : (PyStr.code c =? 95)%nat = false) by (apply Nat.eqb_neq; lia).
  now rewrite H48, H65, H97, H95.
Qed.

Lemma digit_word (c : ascii) :
  PyStr.is_digit c = true -> PyStr.is_word c = true.
Proof. unfold PyStr.is_word. now intros ->. Qed.

Lemma match_at_not_digit (pw : bool) (c : ascii) (s : string) :
  PyStr.is_digit c = false -> match_at pw (String c s) = None.
Proof.
  intros H. unfold match_at. destruct s as [|d2 [|d3 rest]]; try reflexivity.
  now rewrite H, andb_false_r.
Qed.

Lemma search_from_skip (pw : bool) (c : ascii) (s : string) :
  PyStr.is_digit c = false ->
  search_from pw (String c s) = search_from (PyStr.is_word c) s.
Proof.
  intros H. cbn [search_from]. now rewrite match_at_not_digit.
Qed.

Lemma search_from_upper (pw : bool) (u r : string) :
  all_of PyStr.is_upper u = true -> u <> "" ->
  search_from pw (u ++ r) = search_from true r.
Proof.
  revert pw. induction u as [|c u IH]; intros pw Hu Hne; [congruence|].
  cbn [all_of] in Hu. apply andb_true_iff in Hu as [Hc Hu].
  destruct (upper_not_digit c Hc) as [Hd Hw].
  cbn [append]. rewrite search_from_skip by assumption. rewrite Hw.
  destruct u as [|c' u']; [reflexivity|].
  apply IH; [assumption | discriminate].
Qed.

Lemma search_from_space (pw : bool) (w r : string) :
  all_of PyStr.is_space w = true -> w <> "" ->
  search_from pw (w ++ r) = search_from false r.
Proof.
  revert pw. induction w as [|c w IH]; intros pw Hu Hne; [congruence|].
  cbn [all_of] in Hu. apply andb_true_iff in Hu as [Hc Hu].
  destruct (space_not_word c Hc) as [Hd Hw].
  cbn [append]. rewrite search_from_skip by assumption. rewrite Hw.
  destruct w as [|c' w']; [reflexivity|].
  apply IH; [assumption | discriminate].
Qed.

(** The number of a code of the shape is found only when no letter
    follows it. *)
Lemma re_search_shaped (dept gap number suffix : string) :
  shaped dept gap number suffix ->
  re_search_course_num (dept ++ gap ++ number ++ suffix)
  = if is_empty suffix then Some number else None.
Proof.
  intros (Hu & Hul & Hw & Hwn & Hd & Hdl & Hs & Hsl).
  unfold re_search_course_num.
  rewrite search_from_upper;
    [|assumption | destruct dept; [cbn in Hul; lia | discriminate]].
  rewrite search_from_space by assumption.
  destruct number as [|d1 [|d2 [|d3 [|d4 n]]]]; try discriminate Hdl.
  cbn [all_of] in Hd.
  apply andb_true_iff in Hd as [D1 Hd].
  apply andb_true_iff in Hd as [D2 Hd].
  apply andb_true_iff in Hd as [D3 _].
  destruct suffix as [|c [|c' s']]; [| |cbn in Hsl; lia].
  - cbn [append search_from match_at boundary_after is_empty].
    now rewrite D1, D2, D3.
  - cbn [all_of] in Hs. apply andb_true_iff in Hs as [Hc _].
    destruct (upper_not_digit c Hc) as [Hcd Hcw].
    cbn [append search_from match_at boundary_after is_empty].
    rewrite D1, D2, D3, Hcw, (digit_word d1 D1), ?(digit_word d2 D2),
      ?(digit_word d3 D3), ?Hcd.
    reflexivity.
Qed.

(** X4: a course code that [get_course_enrollment] reads from a detail page
    is two to four capital letters, white space, three digits and at most
    one capital letter. The row that receives it is graduate exactly when
    the number is 700 or more and no letter follows: a code with a suffix,
    such as [MATH 715A], is undergraduate whatever its number. *)
Theorem detail_code_level (src g : string) (r : RawCourseRow) :
  search_code src = Some g ->
  exists dept gap number suffix,
    g = dept ++ gap ++ number ++ suffix
    /\ shaped dept gap number suffix
    /\ is_grad (set_course_code r g)
       = is_empty suffix && (700 <=? PyStr.int_of_digits number)%Z.
Proof.
  intros H. destruct (search_code_some src g H) as [p [t [_ Ht]]].
  destruct (match_code_at_shaped t g Ht)
    as (dept & gap & number & suffix & rest & Hg & _ & Hsh).
  exists dept, gap, number, suffix. split; [exact Hg|]. split; [exact Hsh|].
  unfold is_grad. cbn [set_course_code course_code]. rewrite Hg.
  rewrite re_search_shaped by assumption.
  now destruct (is_empty suffix).
Qed.

Lemma detail_code_level_witness :
  exists dept gap number suffix,
    "MATH 715A" = dept ++ gap ++ number ++ suffix
    /\ shaped dept gap number suffix
    /\ is_grad (set_course_code Sample.linked_row "MATH 715A")
       = is_empty suffix && (700 <=? PyStr.int_of_digits number)%Z.
Proof.
  apply (detail_code_level "<title>MATH 715A - Topics</title>" "MATH 715A").
  reflexivity.
Defined.

End DetailLevel.

(** ** Counts are never negative *)

Section Nonnegative.






(** *** The desktop variant *)









(** *** The web-UI variant *)









End Nonnegative.

(** ** The rows of the desktop summary *)

Section SummaryRows.
Import Desktop Schema Pipeline.

(** X7: the summary of the desktop variant has one row for each pair of a
    last and a first name that occurs in the input, and the rows come in
    ascending order of the last name and, for equal last names, of the first
    name. *)
Theorem summary_rows_sorted (df : list NamedRow) :
  exists ks,
    map record_key (rows (create_summary_table df)) = map Some ks
    /\ StronglySorted (fun a b => key_ltb a b = true) ks
    /\ forall l f,
         In (l, f) ks <->
         exists r, In r df /\ last_name r = l /\ first_name r = f.
Proof.
  exists (group_keys df). split; [|split].
  - rewrite create_summary_table_summary. unfold summary. cbn [rows].
    rewrite map_map. apply map_ext. intros k.
    apply record_key_summary_record.
  - apply (sort_uniq_sorted key_eqb key_ltb key_eqb_spec key_ltb_trans
             key_ltb_total).
  - intros l f. rewrite In_group_keys. unfold key_of.
    split; intros [r [Hr H]]; exists r; (split; [exact Hr|]).
    + now inversion H.
    + destruct H as [-> ->]. reflexivity.
Qed.







End SummaryRows.

(** ** The rows and the outcome of the web-UI variant *)

Section WebRows.
Import Web Workload Text.

Lemma forallb_false_exists {A : Type} (p : A -> bool) (l : list A) :
  forallb p l = false <-> exists x, In x l /\ p x = false.
Proof.
  induction l as [|y l IH]; cbn [forallb In].
  - split; [discriminate | intros [x [[] _]]].
  - rewrite andb_false_iff, IH. split.
    + intros [H|[x [Hx H]]]; [exists y | exists x]; auto.
    + intros [x [[->|Hx] H]]; [now left | right; now exists x].
Qed.

Lemma numbered_false (c : ClassRow) :
  numbered c = false <-> leading_digit (course_number c) = Raise ValueError.
Proof.
  unfold numbered, leading_digit.
  destruct (course_number c) as [|ch rest]; [tauto|].
  destruct (PyStr.is_digit ch); split; congruence.
Qed.

(** X9: the web-UI variant returns no workload table exactly when some row
    with an instructor other than "TBA" has a course number that does not
    start with a digit. Such a course number in a row of "TBA" does no harm. *)
Theorem web_summary_fails_iff (data : list ClassRow) :
  summarize data = None <->
  exists c,
    In c data
    /\ instructor c <> "TBA"
    /\ leading_digit (course_number c) = Raise ValueError.
Proof.
  unfold summarize, workload_data. rewrite workloads_eq.
  destruct (forallb _ _) eqn:E.
  - split; [discriminate|]. intros [c (Hc & Hi & Hn)]. exfalso.
    rewrite forallb_forall in E.
    assert (Hin : In (instructor c)
                    (filter named (unique String.eqb (map instructor data)))).
    { apply filter_In. split.
      - apply (In_unique String.eqb str_eqb_spec). now apply in_map.
      - unfold named. destruct (String.eqb_spec (instructor c) "TBA");
          [contradiction | reflexivity]. }
    specialize (E _ Hin). rewrite forallb_forall in E.
    assert (Hcl : In c (classes_of data (instructor c))).
    { apply filter_In. split; [assumption | apply String.eqb_refl]. }
    specialize (E _ Hcl). apply numbered_false in Hn. congruence.
  - split; [intros _ | reflexivity].
    apply forallb_false_exists in E. destruct E as [i [Hi E]].
    apply forallb_false_exists in E. destruct E as [c [Hc Hn]].
    apply filter_In in Hc. destruct Hc as [Hc Hci].
    apply String.eqb_eq in Hci. subst i.
    apply filter_In in Hi. destruct Hi as [_ Hnm].
    exists c. split; [assumption|]. split.
    + unfold named in Hnm. intros Heq. rewrite Heq in Hnm. discriminate.
    + now apply numbered_false.
Qed.




End WebRows.

(** ** The configuration that the prompts accept *)

Section Prompts.
Import Prompt Code.

Lemma rstrip_no_trailing (s a : string) (c : ascii) :
  PyStr.rstrip s = a ++ String c "" -> PyStr.is_space c = false.
Proof.
  revert a. induction s as [|x s IH]; intros a; cbn [PyStr.rstrip].
  - destruct a; discriminate.
  - destruct (PyStr.rstrip s) as [|y r] eqn:E.
    + destruct (PyStr.is_space x) eqn:Ex; [destruct a; discriminate|].
      destruct a as [|x' a]; cbn [append]; intros H.
      * injection H as <-. exact Ex.
      * injection H as _ H. destruct a; discriminate.
    + destruct a as [|x' a]; cbn [append]; intros H.
      * discriminate.
      * injection H as _ H. now apply (IH a).
Qed.

Lemma strip_no_trailing (s a : string) (c : ascii) :
  PyStr.strip s = a ++ String c "" -> PyStr.is_space c = false.
Proof. apply rstrip_no_trailing. Qed.

Lemma line_feed_space (c : ascii) :
  (PyStr.code c =? 10)%nat = true -> PyStr.is_space c = true.
Proof.
  intros H. apply Nat.eqb_eq in H. unfold PyStr.is_space. now rewrite H.
Qed.

Lemma to_upper_line_feed (c : ascii) :
  (PyStr.code (to_upper c) =? 10)%nat = true -> PyStr.is_space c = true.
Proof.
  unfold to_upper. destruct (PyStr.is_lower c) eqn:E;
    [|apply line_feed_space].
  unfold PyStr.is_lower in E. apply andb_true_iff in E as [E1 E2].
  apply Nat.leb_le in E1, E2. unfold PyStr.code in *.
  rewrite nat_ascii_embedding by lia. intros H. apply Nat.eqb_eq in H. lia.
Qed.

Lemma upper_snoc (t u : string) (c : ascii) :
  upper t = u ++ String c "" ->
  exists u' c', t = u' ++ String c' "" /\ to_upper c' = c.
Proof.
  revert u. induction t as [|x t IH]; intros u; cbn [upper].
  - destruct u; discriminate.
  - destruct u as [|y u]; cbn [append]; intros H.
    + injection H as Hx Ht. destruct t; [|discriminate].
      now exists "", x.
    + injection H as _ Ht. destruct (IH u Ht) as [u' [c' [-> Hc]]].
      now exists (String x u'), c'.
Qed.

Lemma at_end_cases (rest : string) :
  at_end rest = true ->
  rest = "" \/ exists c, rest = String c "" /\ (PyStr.code c =? 10)%nat = true.
Proof.
  destruct rest as [|c [|c' r]]; cbn [at_end]; intros H;
    [now left | right; now exists c | discriminate].
Qed.

Lemma match_term_strip (line : string) :
  match_term (PyStr.strip line) = true ->
  String.length (PyStr.strip line) = 4%nat
  /\ PyStr.all_digits (PyStr.strip line) = true.
Proof.
  unfold match_term.
  destruct (PyStr.strip line)
    as [|d1 [|d2 [|d3 [|d4 rest]]]] eqn:E; try discriminate.
  intros H. apply andb_true_iff in H as [H He].
  apply andb_true_iff in H as [H D4]. apply andb_true_iff in H as [H D3].
  apply andb_true_iff in H as [D1 D2].
  destruct (at_end_cases rest He) as [->|[c [-> Hc]]].
  - cbn [String.length PyStr.all_digits]. split; [reflexivity|].
    now rewrite D1, D2, D3, D4.
  - exfalso.
    change (String d1 (String d2 (String d3 (String d4 (String c "")))))
      with (String d1 (String d2 (String d3 (String d4 ""))) ++ String c "")
      in E.
    apply strip_no_trailing in E. apply line_feed_space in Hc. congruence.
Qed.

Lemma match_subject_strip (line : string) :
  match_subject (upper (PyStr.strip line)) = true ->
  (2 <= String.length (upper (PyStr.strip line)) <= 5)%nat
  /\ all_of PyStr.is_upper (upper (PyStr.strip line)) = true.
Proof.
  unfold match_subject.
  destruct (Desktop.take_upto 5 PyStr.is_upper (upper (PyStr.strip line)))
    as [u rest] eqn:E.
  destruct (take_upto_spec _ _ _ _ _ E) as (Hs & Hu & Hl).
  intros H. apply andb_true_iff in H as [H2 He]. apply Nat.leb_le in H2.
  destruct (at_end_cases rest He) as [->|[c [-> Hc]]].
  - rewrite append_empty_r in Hs. rewrite Hs. auto.
  - exfalso. destruct (upper_snoc _ _ _ Hs) as [u' [c' [Hst Hup]]].
    apply strip_no_trailing in Hst. rewrite <- Hup in Hc.
    apply to_upper_line_feed in Hc. congruence.
Qed.

(** X11: a configuration that [get_user_inputs] returns has as term the
    typed line without the surrounding white space, which is exactly four
    digits; as subject the typed line, trimmed and in capitals, which is two
    to five capital letters; a class category that is not empty; as output
    file the answer of the dialog, which is not empty, or the default file
    name when the dialog raises; and the confirmation was empty, "y" or
    "yes" up to case and surrounding white space. *)
Theorem accepted_configuration
  (term_line subject_line classcat_line : string)
  (asksaveasfilename : string -> Dialog) (confirm_line : string)
  (config : Config) :
  get_user_inputs term_line subject_line classcat_line asksaveasfilename
    confirm_line = Some config ->
  term config = PyStr.strip term_line
  /\ String.length (term config) = 4%nat
  /\ PyStr.all_digits (term config) = true
  /\ subject config = upper (PyStr.strip subject_line)
  /\ (2 <= String.length (subject config) <= 5)%nat
  /\ all_of PyStr.is_upper (subject config) = true
  /\ classcat config <> ""
  /\ ((exists file,
         asksaveasfilename (initialfile (subject config) (term config))
         = Answered file
         /\ file <> "" /\ output_file config = mkPath file)
      \/ (asksaveasfilename (initialfile (subject config) (term config))
          = DialogError
          /\ output_file config
             = mkPath (initialfile (subject config) (term config))))
  /\ In (PyStr.lower (PyStr.strip confirm_line)) [""; "y"; "yes"].
Proof.
  unfold get_user_inputs. cbv zeta.
  destruct (match_term (PyStr.strip term_line)) eqn:Et; [|discriminate].
  destruct (match_subject (upper (PyStr.strip subject_line))) eqn:Es;
    [|discriminate].
  cbn [negb].
  destruct (match_term_strip _ Et) as [Hl Hd].
  destruct (match_subject_strip _ Es) as [Hsl Hsu].
  set (t := PyStr.strip term_line) in *.
  set (s := upper (PyStr.strip subject_line)) in *.
  set (k := PyStr.lower (PyStr.strip confirm_line)).
  assert (Hk : (negb (is_empty k) && negb (String.eqb k "y")
                && negb (String.eqb k "yes")) = false ->
               In k [""; "y"; "yes"]).
  { intros H. cbn [In]. destruct k as [|c k']; [now left|].
    cbn [is_empty negb andb] in H.
    destruct (String.eqb_spec (String c k') "y") as [->|_]; [tauto|].
    destruct (String.eqb_spec (String c k') "yes") as [->|_]; [tauto|].
    discriminate. }
  assert (Hc : (if is_empty (upper (PyStr.strip classcat_line))
                then "REG" else upper (PyStr.strip classcat_line)) <> "").
  { destruct (upper (PyStr.strip classcat_line)); discriminate. }
  destruct (asksaveasfilename (initialfile s t)) as [file|] eqn:Ed.
  - destruct file as [|c file]; [discriminate|]. cbn [is_empty].
    destruct (negb (is_empty k) && _ && _) eqn:Ek; [discriminate|].
    intros H. injection H as <-. cbn [term subject classcat output_file].
    repeat (split; [assumption || reflexivity|]).
    split; [|now apply Hk].
    left. exists (String c file). fold s t. rewrite Ed.
    repeat split. discriminate.
  - destruct (negb (is_empty k) && _ && _) eqn:Ek; [discriminate|].
    intros H. injection H as <-. cbn [term subject classcat output_file].
    repeat (split; [assumption || reflexivity|]).
    split; [|now apply Hk].
    right. fold s t. rewrite Ed. split; reflexivity.
Qed.

Lemma accepted_configuration_witness :
  get_user_inputs " 2253" "fin " "" no_display "Y" = Some fin_2253
  /\ term fin_2253 = PyStr.strip " 2253"
  /\ String.length (term fin_2253) = 4%nat
  /\ PyStr.all_digits (term fin_2253) = true
  /\ subject fin_2253 = upper (PyStr.strip "fin ")
  /\ (2 <= String.length (subject fin_2253) <= 5)%nat
  /\ all_of PyStr.is_upper (subject fin_2253) = true
  /\ classcat fin_2253 <> ""
  /\ ((exists file,
         no_display (initialfile (subject fin_2253) (term fin_2253))
         = Answered file
         /\ file <> "" /\ output_file fin_2253 = mkPath file)
      \/ (no_display (initialfile (subject fin_2253) (term fin_2253))
          = DialogError
          /\ output_file fin_2253
             = mkPath (initialfile (subject fin_2253) (term fin_2253))))
  /\ In (PyStr.lower (PyStr.strip "Y")) [""; "y"; "yes"].
Proof.
  split; [reflexivity|].
  apply (accepted_configuration " 2253" "fin " "" no_display "Y" fin_2253).
  reflexivity.
Defined.

End Prompts.

(** ** What the deployment script runs *)

Section Deployment.
Import Deploy.

Lemma run_command_checked (sh : Shell) (cmd : string) (log : Log) :
  run_command sh cmd true log
  = if (sh log cmd =? 0)%Z
    then (Return 0%Z, (log ++ [(cmd, 0%Z)])%list)
    else (Exit 1%Z, (log ++ [(cmd, sh log cmd)])%list).
Proof.
  unfold run_command. cbn [andb].
  destruct (Z.eqb_spec (sh log cmd) 0) as [->|_]; reflexivity.
Qed.

Lemma bind_checked {B : Type} (sh : Shell) (cmd : string)
  (k : Z -> M B) (log : Log) :
  bind (run_command sh cmd true) k log
  = if (sh log cmd =? 0)%Z
    then k 0%Z (log ++ [(cmd, 0%Z)])%list
    else (Exit 1%Z, (log ++ [(cmd, sh log cmd)])%list).
Proof.
  unfold bind. rewrite run_command_checked.
  destruct (sh log cmd =? 0)%Z; reflexivity.
Qed.

Lemma bind_unchecked {B : Type} (sh : Shell) (cmd : string)
  (k : Z -> M B) (log : Log) :
  bind (run_command sh cmd false) k log
  = k (sh log cmd) (log ++ [(cmd, sh log cmd)])%list.
Proof. reflexivity. Qed.

(** X12: [deploy_to_heroku] returns the address of the application only
    after the check of the CLI, the creation of the application, the three
    build packs, [git add] and [git push] have all succeeded, in this order
    and with the commit, whose return code does not matter, before the push.
    It returns [False] only when the check of the CLI fails, and then it has
    run nothing else. Any other failure ends the process with code 1. *)
Theorem heroku_outcome (sh : Shell) (timestamp : Z)
  (app_name : option string) (log : Log) :
  let name := heroku_app_name timestamp app_name in
  match deploy_to_heroku sh timestamp app_name log with
  | (Return (Some app_url), log') =>
      app_url = "https://" ++ name ++ ".herokuapp.com"
      /\ exists returncode,
           log' = (log
                   ++ map (fun cmd => (cmd, 0%Z)) (heroku_commands name)
                   ++ [(deploy_commit, returncode);
                       ("git push heroku main", 0%Z)])%list
  | (Return None, log') =>
      exists returncode,
        returncode <> 0%Z
        /\ log' = (log ++ [("heroku --version", returncode)])%list
  | (Exit code, _) => code = 1%Z
  end.
Proof.
  intros name. unfold deploy_to_heroku. fold name.
  rewrite run_command_checked.
  destruct (Z.eqb_spec (sh log "heroku --version") 0) as [E0|E0].
  - cbv zeta. rewrite bind_checked.
    destruct (_ =? 0)%Z; [|reflexivity].
    unfold bind at 1. unfold buildpacks. cbn [add_buildpacks].
    rewrite bind_checked. destruct (_ =? 0)%Z; [|reflexivity].
    rewrite bind_checked. destruct (_ =? 0)%Z; [|reflexivity].
    rewrite bind_checked. destruct (_ =? 0)%Z; [|reflexivity].
    unfold ret at 1.
    rewrite bind_checked. destruct (_ =? 0)%Z; [|reflexivity].
    rewrite bind_unchecked.
    rewrite bind_checked. destruct (_ =? 0)%Z; [|reflexivity].
    unfold ret. split; [reflexivity|].
    eexists. rewrite <- !app_assoc. reflexivity.
  - exists (sh log "heroku --version"). split; [assumption | reflexivity].
Qed.

Lemma passed_snoc (log : Log) (cmd : string) (returncode : Z) :
  Forall passed log -> passed (cmd, returncode) ->
  Forall passed (log ++ [(cmd, returncode)]).
Proof.
  intros H1 H2. apply Forall_app. split; [assumption|].
  constructor; [assumption | constructor].
Qed.

Lemma stops_ret {A : Type} (a : A) : stops_at_failure (ret a).
Proof. intros log H. exact H. Qed.

Lemma stops_bind {A B : Type} (m : M A) (f : A -> M B) :
  stops_at_failure m -> (forall a, stops_at_failure (f a)) ->
  stops_at_failure (bind m f).
Proof.
  intros Hm Hf log H. specialize (Hm log H). unfold bind.
  destruct (m log) as [[a|code] log']; [|exact Hm].
  exact (Hf a log' Hm).
Qed.

Lemma stops_checked (sh : Shell) (cmd : string) :
  stops_at_failure (run_command sh cmd true).
Proof.
  intros log H. rewrite run_command_checked.
  destruct (Z.eqb_spec (sh log cmd) 0) as [E|E].
  - apply passed_snoc; [assumption | now left].
  - split; [reflexivity|]. now exists log, cmd, (sh log cmd).
Qed.

Lemma stops_tolerated (sh : Shell) (cmd : string) (check : bool) :
  tolerated cmd = true ->
  forall log,
    Forall passed log ->
    Forall passed (snd (run_command sh cmd check log)).
Proof.
  intros Ht log H. unfold run_command. cbv zeta.
  destruct (check && negb (sh log cmd =? 0)%Z); cbn [snd];
    (apply passed_snoc; [assumption | now right]).
Qed.

Lemma stops_heroku (sh : Shell) (timestamp : Z) (app_name : option string) :
  stops_at_failure (deploy_to_heroku sh timestamp app_name).
Proof.
  intros log H. unfold deploy_to_heroku.
  pose proof (stops_tolerated sh "heroku --version" true eq_refl log H)
    as Hv.
  destruct (run_command sh "heroku --version" true log) as [[rc|code] log'];
    cbn [snd] in Hv; [|exact Hv].
  cbv zeta. revert log' Hv.
  change (stops_at_failure
            (bind (run_command sh
                     ("heroku create " ++ heroku_app_name timestamp app_name)
                     true) (fun _ =>
             bind (add_buildpacks sh 1 buildpacks) (fun _ =>
             bind (run_command sh "git add ." true) (fun _ =>
             bind (run_command sh deploy_commit false) (fun _ =>
             bind (run_command sh "git push heroku main" true) (fun _ =>
             ret (Some ("https://" ++ heroku_app_name timestamp app_name
                        ++ ".herokuapp.com"))))))))).
  apply stops_bind; [apply stops_checked | intros _].
  apply stops_bind.
  { unfold buildpacks. cbn [add_buildpacks].
    repeat (apply stops_bind; [apply stops_checked | intros _]).
    apply stops_ret. }
  intros _. apply stops_bind; [apply stops_checked | intros _].
  apply stops_bind.
  { intros l Hl.
    pose proof (stops_tolerated sh deploy_commit false eq_refl l Hl)
      as Hc.
    destruct (run_command sh _ false l) as [[rc'|code] l'] eqn:E;
      cbn [snd] in Hc; [exact Hc|].
    unfold run_command in E. cbn [andb] in E. discriminate. }
  intros _. apply stops_bind; [apply stops_checked | intros _].
  apply stops_ret.
Qed.

Lemma stops_railway (sh : Shell) : stops_at_failure (deploy_to_railway sh).
Proof.
  unfold deploy_to_railway. apply stops_bind.
  - intros log H. unfold try_except.
    pose proof (stops_tolerated sh "railway --version" true eq_refl log H)
      as Hv.
    destruct (run_command sh "railway --version" true log)
      as [[rc|code] log']; cbn [snd] in Hv; [exact Hv|].
    now apply stops_checked.
  - intros _.
    repeat (apply stops_bind; [apply stops_checked | intros _]).
    apply stops_ret.
Qed.

Lemma stops_setup_git (sh : Shell) (git_exists : bool) :
  stops_at_failure (setup_git_if_needed sh git_exists).
Proof.
  unfold setup_git_if_needed. destruct git_exists; cbn [negb].
  - apply stops_ret.
  - repeat (apply stops_bind; [apply stops_checked | intros _]).
    apply stops_ret.
Qed.

Lemma stops_main (sh : Shell) (timestamp : Z) (git_exists : bool)
  (platform : Platform) (app_name : option string) :
  stops_at_failure (main sh timestamp git_exists platform app_name).
Proof.
  unfold main. apply stops_bind; [apply stops_setup_git | intros _].
  destruct platform.
  - apply stops_bind; [apply stops_heroku | intros _; apply stops_ret].
  - apply stops_bind; [apply stops_railway | intros _; apply stops_ret].
  - apply stops_bind; [apply stops_ret | intros _; apply stops_ret].
  - apply stops_bind; [apply stops_heroku | intros _].
    apply stops_bind; [apply stops_railway | intros _].
    apply stops_bind; [apply stops_ret | intros _; apply stops_ret].
Qed.

(** X13: whatever the shell answers and whichever platform is chosen, [main]
    runs no command after one that failed, except after the two checks of a
    CLI and the commit of the Heroku deployment; and when it ends the
    process, it does so with code 1 right after a command that failed. *)
Theorem main_stops_at_first_failure (sh : Shell) (timestamp : Z)
  (git_exists : bool) (platform : Platform) (app_name : option string) :
  match main sh timestamp git_exists platform app_name [] with
  | (Return _, log) => Forall passed log
  | (Exit code, log) =>
      code = 1%Z
      /\ exists done cmd returncode,
           log = (done ++ [(cmd, returncode)])%list
           /\ Forall passed done
           /\ returncode <> 0%Z
  end.
Proof.
  apply (stops_main sh timestamp git_exists platform app_name []).
  constructor.
Qed.

(** X14: with the platform [all], a missing Heroku CLI does not stop the
    script: [deploy_to_heroku] returns [False], and the Railway deployment
    runs next. *)
Theorem all_continues_without_heroku (sh : Shell) (timestamp : Z)
  (app_name : option string) (log : Log) :
  sh log "heroku --version" <> 0%Z ->
  main sh timestamp true all app_name log
  = bind (deploy_to_railway sh) (fun _ => ret tt)
      (log ++ [("heroku --version", sh log "heroku --version")])%list.
Proof.
  intros H. unfold main, setup_git_if_needed. cbn [negb].
  unfold bind at 1. unfold ret at 1. unfold bind at 1.
  unfold deploy_to_heroku. rewrite run_command_checked.
  destruct (Z.eqb_spec (sh log "heroku --version") 0) as [E|_];
    [contradiction|].
  reflexivity.
Qed.

Lemma all_continues_without_heroku_witness :
  main no_heroku 0 true all None []
  = (Return tt,
     [("heroku --version", 127%Z); ("railway --version", 0%Z);
      ("railway login", 0%Z); ("railway init", 0%Z);
      ("railway variables set PORT=8501", 0%Z); ("railway up", 0%Z)]).
Proof.
  rewrite (all_continues_without_heroku no_heroku 0 None []);
    [reflexivity | discriminate].
Defined.

End Deployment.

(** ** Supervision sections *)

Section Supervision.
Import Occurs.

Lemma prefix_iff (a s : string) :
  String.prefix a s = true <-> exists post, s = a ++ post.
Proof.
  revert s. induction a as [|c a IH]; intros s.
  - split; [intros _; now exists s | intros _; now destruct s].
  - destruct s as [|d s]; cbn [String.prefix append].
    + split; [discriminate | intros [post H]; discriminate].
    + destruct (ascii_dec c d) as [->|Hne].
      * rewrite IH. split; intros [post H]; exists post.
        -- now rewrite H.
        -- now injection H.
      * split; [discriminate|]. intros [post H]. congruence.
Qed.

Lemma contains_iff (sub s : string) :
  PyStr.contains sub s = true <-> exists pre post, s = pre ++ sub ++ post.
Proof.
  induction s as [|c s IH]; cbn [PyStr.contains];
    rewrite orb_true_iff, prefix_iff.
  - split.
    + intros [[post H]|H]; [now exists "", post | discriminate].
    + intros [pre [post H]]. left. destruct pre; [|discriminate].
      now exists post.
  - rewrite IH. split.
    + intros [[post H]|[pre [post H]]].
      * now exists "", post.
      * exists (String c pre), post. cbn [append]. now rewrite H.
    + intros [[|d pre] [post H]].
      * left. now exists post.
      * right. cbn [append] in H. injection H as _ H.
        now exists pre, post.
Qed.

(** X15: a row of the desktop variant is a supervision row exactly when one
    of the six words occurs in its title, in any case and anywhere, also
    inside a longer word; a row of the web-UI variant, exactly when one of
    [IND], [THE] and [SUP] so occurs in its component. *)
Theorem supervision_by_occurrence (r : Desktop.RawCourseRow)
  (c : Web.ClassRow) :
  (Desktop.is_supervision r = true <->
   exists word,
     In word ["Independent"; "Internship"; "Supervision"; "Thesis"; "Field";
              "Research"]
     /\ occurs word (Desktop.title r))
  /\ (Web.is_supervision c = true <->
      exists word,
        In word ["IND"; "THE"; "SUP"] /\ occurs word (Web.component c)).
Proof.
  unfold Desktop.is_supervision, Web.is_supervision,
    Desktop.supervision_keywords, occurs.
  rewrite !existsb_exists. split.
  - split; intros [k [Hk H]]; exists k; (split; [exact Hk|]);
      now apply contains_iff.
  - split; intros [k [Hk H]]; exists k; (split; [exact Hk|]);
      now apply contains_iff.
Qed.

End Supervision.

(** ** No row is lost or counted twice *)

Section Conservation.

Context {K R : Type} (eqb : K -> K -> bool) (key : R -> K).

Hypothesis eqb_spec : forall x y, eqb x y = true <-> x = y.






End Conservation.

Section ConservedTotals.
Import Desktop Schema Totals.







End ConservedTotals.

(** ** The inputs that the prompts accept *)

Section ValidInputs.
Import Prompt Code Letters.

Lemma to_upper_letter (c : ascii) :
  is_letter c = true -> PyStr.is_upper (to_upper c) = true.
Proof.
  unfold is_letter, to_upper. intros H.
  destruct (PyStr.is_lower c) eqn:El.
  - unfold PyStr.is_lower in El. apply andb_true_iff in El as [E1 E2].
    apply Nat.leb_le in E1, E2. unfold PyStr.is_upper, PyStr.code in *.
    rewrite nat_ascii_embedding by lia.
    apply andb_true_iff. split; apply Nat.leb_le; lia.
  - now rewrite orb_false_r in H.
Qed.

Lemma upper_letters (s : string) :
  all_of is_letter s = true -> all_of PyStr.is_upper (upper s) = true.
Proof.
  induction s as [|c s IH]; [reflexivity|].
  cbn [all_of upper]. intros H. apply andb_true_iff in H as [Hc Hs].
  now rewrite (to_upper_letter c Hc), (IH Hs).
Qed.

Lemma length_upper (s : string) : String.length (upper s) = String.length s.
Proof.
  induction s as [|c s IH]; [reflexivity|].
  cbn [upper String.length]. now rewrite IH.
Qed.

Lemma take_upto_all (n : nat) (p : ascii -> bool) (s : string) :
  all_of p s = true -> (String.length s <= n)%nat ->
  Desktop.take_upto n p s = (s, "").
Proof.
  revert n. induction s as [|c s IH]; intros n Hp Hl.
  - now destruct n.
  - destruct n as [|n]; [cbn in Hl; lia|].
    cbn [all_of] in Hp. apply andb_true_iff in Hp as [Hc Hs].
    cbn [Desktop.take_upto]. rewrite Hc.
    rewrite (IH n Hs) by (cbn in Hl; lia). reflexivity.
Qed.

Lemma match_term_digits (t : string) :
  String.length t = 4%nat -> PyStr.all_digits t = true ->
  match_term t = true.
Proof.
  destruct t as [|d1 [|d2 [|d3 [|d4 [|c r]]]]]; try discriminate.
  intros _ H. cbn [PyStr.all_digits] in H.
  apply andb_true_iff in H as [D1 H]. apply andb_true_iff in H as [D2 H].
  apply andb_true_iff in H as [D3 H]. apply andb_true_iff in H as [D4 _].
  cbn [match_term at_end]. now rewrite D1, D2, D3, D4.
Qed.

Lemma match_subject_letters (s : string) :
  (2 <= String.length s <= 5)%nat -> all_of is_letter s = true ->
  match_subject (upper s) = true.
Proof.
  intros Hl Hs. unfold match_subject.
  rewrite (take_upto_all 5 PyStr.is_upper (upper s))
    by (rewrite ?length_upper; auto using upper_letters; lia).
  rewrite length_upper. cbn [at_end].
  rewrite andb_true_r. apply Nat.leb_le. lia.
Qed.

(** X17: [get_user_inputs] accepts every well-formed input.  When the term
    typed is four digits and the subject two to five letters of either
    case, both up to surrounding white space, the dialog returns a file
    name and the confirmation is empty, "y" or "yes" up to case and white
    space, the configuration is returned, with the subject in capitals and
    the class category "REG" when none is typed. *)
Theorem valid_inputs_accepted
  (term_line subject_line classcat_line file confirm_line : string)
  (asksaveasfilename : string -> Dialog) :
  String.length (PyStr.strip term_line) = 4%nat ->
  PyStr.all_digits (PyStr.strip term_line) = true ->
  (2 <= String.length (PyStr.strip subject_line) <= 5)%nat ->
  all_of is_letter (PyStr.strip subject_line) = true ->
  asksaveasfilename
    (initialfile (upper (PyStr.strip subject_line))
       (PyStr.strip term_line)) = Answered file ->
  file <> "" ->
  In (PyStr.lower (PyStr.strip confirm_line)) [""; "y"; "yes"] ->
  get_user_inputs term_line subject_line classcat_line asksaveasfilename
    confirm_line
  = Some {| term := PyStr.strip term_line;
            subject := upper (PyStr.strip subject_line);
            classcat :=
              if is_empty (upper (PyStr.strip classcat_line)) then "REG"
              else upper (PyStr.strip classcat_line);
            output_file := mkPath file |}.
Proof.
  intros Htl Htd Hsl Hsa Hd Hf Hc. unfold get_user_inputs. cbv zeta.
  rewrite (match_term_digits _ Htl Htd), (match_subject_letters _ Hsl Hsa).
  cbn [negb]. rewrite Hd.
  destruct file as [|c file]; [contradiction|]. cbn [is_empty].
  cbn [In] in Hc. destruct Hc as [<-|[<-|[<-|[]]]]; reflexivity.
Qed.

Lemma valid_inputs_accepted_witness :
  get_user_inputs "2253 " " fin" "" (fun _ => Answered "load.xlsx") "Yes"
  = Some {| term := "2253"; subject := "FIN"; classcat := "REG";
            output_file := mkPath "load.xlsx" |}.
Proof.
  apply (valid_inputs_accepted "2253 " " fin" "" "load.xlsx" "Yes"
           (fun _ => Answered "load.xlsx"));
    try reflexivity.
  - vm_compute. lia.
  - discriminate.
  - vm_compute. right. right. left. reflexivity.
Defined.

End ValidInputs.
